(** * The behavior-injection demo service (rollouts/app-src/main.go)

    A shallow embedding of the Go program: process configuration read
    from the environment, the behavior engine [applyBehavior], the four
    instrumented HTTP handlers, the Prometheus series they update, and
    the request dispatcher set up by [main].

    Conventions.
    - [math/rand] is an interface ([RandSource]): [Float32] yields a
      value of the half-open unit interval and [Intn n] a value of
      [0, n); both thread the generator state.  A [float32] draw is
      represented by the rational number it denotes and compared with
      the decimal literals of the source; module [binary32] shows that
      the conversion of those literals to [float32] changes no
      comparison.
    - [time.Duration] is an integer count of nanoseconds.  The clock of
      a [World] advances only through [time.Sleep], so the difference of
      two clock readings is the delay injected in between (encode and
      transport overhead is excluded).
    - A Prometheus vector is a finite map from label tuples to samples.
      Handlers run one after the other; the series are atomic in the
      library, so an interleaving of handlers yields the same samples. *)

From Stdlib Require Import ZArith QArith Lia List Ascii String.
From stdpp Require Import base option gmap strings list fin_maps pretty.

Local Open Scope Z_scope.
Local Open Scope string_scope.

(** ** Go primitives *)

Module time.

(** [time.Duration]: nanoseconds. *)
Definition Duration := Z.

Definition Nanosecond : Duration := 1.
Definition Millisecond : Duration := 1000000.
Definition Second : Duration := 1000000000.

(** [d.Milliseconds()] *)
Definition Milliseconds (d : Duration) : Z := Z.quot d Millisecond.

(** [d.Seconds()], as the exact rational. *)
Definition Seconds (d : Duration) : Q := Qmake d 1000000000.

End time.

Module http.

Definition StatusOK : Z := 200.
Definition StatusInternalServerError : Z := 500.
Definition StatusServiceUnavailable : Z := 503.

(** [http.StatusText] on the codes the service can send. *)
Definition StatusText (code : Z) : string :=
  if decide (code = 200) then "OK"
  else if decide (code = 500) then "Internal Server Error"
  else if decide (code = 503) then "Service Unavailable"
  else "".

Record Request := { Method : string; Path : string }.

End http.

(** [math/rand] as seen by the program. *)
Class RandSource (S : Type) := {
  Float32 : S → Q * S;
  Intn : Z → S → Z * S;
  Float32_range : ∀ s, (0 <= (Float32 s).1 ∧ (Float32 s).1 < 1)%Q;
  Intn_range : ∀ n s, 0 < n → 0 ≤ (Intn n s).1 < n
}.

(** [a < b] on draws, as a boolean. *)
Definition Qltb (a b : Q) : bool := negb (Qle_bool b a).

Lemma Qltb_lt a b : Qltb a b = true ↔ (a < b)%Q.
Proof.
  unfold Qltb. rewrite negb_true_iff, <- not_true_iff_false, Qle_bool_iff.
  split; [apply Qnot_le_lt | apply Qlt_not_le].
Qed.

Lemma Qltb_ge a b : Qltb a b = false ↔ (b <= a)%Q.
Proof. unfold Qltb. rewrite negb_false_iff. apply Qle_bool_iff. Qed.

(** ** [float32] draws and the thresholds

    The program compares a [float32] draw with the constants 0.5, 0.3
    and 0.4 converted to [float32].  The embedding compares the
    rational value of the draw with the decimal literal.  No [float32]
    value lies between a literal and its conversion, so on the values
    a draw can take the two comparisons decide alike. *)

Module binary32.

(** The finite non-negative [float32] values: a significand of at most
    24 bits over a power of two no larger than [2^149]. *)
Definition representable (d : Q) : Prop :=
  ∃ (m : Z) (j : nat),
    0 ≤ m < 2 ^ 24 ∧ (j ≤ 149)%nat ∧ (d == m # Z.to_pos (2 ^ Z.of_nat j))%Q.

(** The constants [0.5], [0.3] and [0.4] converted to [float32]. *)
Definition c0_5 : Q := 1 # 2.
Definition c0_3 : Q := 10066330 # 33554432.
Definition c0_4 : Q := 13421773 # 33554432.

Section Threshold.

(** A threshold [p/10] of the binade [1/4, 1/2), where [float32]
    values are [2^-25] apart, and the numerator [N] of its upper
    neighbour on that grid. *)
Variables (p N : Z).
Hypothesis lower_neighbour : 10 * (N - 1) < p * 2 ^ 25.
Hypothesis upper_neighbour : p * 2 ^ 25 < 10 * N.
Hypothesis in_binade : (10 * 2 ^ 24 ≤ p * 2 ^ 26)%Z.

Lemma lt_neighbour_iff (d : Q) :
  representable d → (d < N # 33554432)%Q ↔ (d < p # 10)%Q.
Proof.
  intros (m & j & Hm & Hj & Hd). rewrite Hd.
  unfold Qlt; simpl.
  rewrite Z2Pos.id by (apply Z.pow_pos_nonneg; lia).
  change (2 ^ 24) with 16777216 in *.
  change (2 ^ 25) with 33554432 in *.
  change (2 ^ 26) with 67108864 in *.
  destruct (Nat.le_gt_cases j 25) as [Hle | Hgt].
  - assert (2 ^ Z.of_nat j * 2 ^ (25 - Z.of_nat j) = 33554432) as Hab.
    { rewrite <- Z.pow_add_r by lia.
      replace (Z.of_nat j + (25 - Z.of_nat j)) with 25 by lia. reflexivity. }
    assert (0 < 2 ^ Z.of_nat j) as Ha by (apply Z.pow_pos_nonneg; lia).
    assert (0 < 2 ^ (25 - Z.of_nat j)) as Hb by (apply Z.pow_pos_nonneg; lia).
    set (a := 2 ^ Z.of_nat j) in *. set (b := 2 ^ (25 - Z.of_nat j)) in *.
    split; intros Hlt.
    + assert (m * b < N) as Hmb.
      { apply (Z.mul_lt_mono_pos_r a); [done|].
        replace (m * b * a) with (m * (a * b)) by ring. rewrite Hab. lia. }
      apply (Z.mul_lt_mono_pos_r b); [done|].
      replace (p * a * b) with (p * (a * b)) by ring. rewrite Hab. lia.
    + assert (10 * (m * b) < p * (a * b)) as Hmb.
      { replace (10 * (m * b)) with (m * 10 * b) by ring.
        replace (p * (a * b)) with (p * a * b) by ring.
        by apply Z.mul_lt_mono_pos_r. }
      rewrite Hab in Hmb.
      replace (m * 33554432) with (m * b * a) by (rewrite <- Hab; ring).
      apply Z.mul_lt_mono_pos_r; [done | lia].
  - assert (2 ^ Z.of_nat j = 33554432 * 2 ^ (Z.of_nat j - 25)) as Ha.
    { change 33554432 with (2 ^ 25). rewrite <- Z.pow_add_r by lia.
      f_equal. lia. }
    assert (2 ≤ 2 ^ (Z.of_nat j - 25))%Z as Hc.
    { change 2 with (2 ^ 1) at 1. apply Z.pow_le_mono_r; lia. }
    rewrite Ha. set (c := 2 ^ (Z.of_nat j - 25)) in *.
    split; intros _; nia.
Qed.

End Threshold.

Lemma Qltb_ext (a b c : Q) : ((a < b)%Q ↔ (a < c)%Q) → Qltb a b = Qltb a c.
Proof.
  intros Hiff.
  destruct (Qltb a b) eqn:Eb, (Qltb a c) eqn:Ec; try done.
  - apply Qltb_lt, Hiff, Qltb_lt in Eb. congruence.
  - apply Qltb_lt, Hiff, Qltb_lt in Ec. congruence.
Qed.

(** [c0_3] and [c0_4] are the [float32] values nearest to 0.3 and 0.4:
    the literal lies between two neighbours of the grid, nearer to the
    upper one. *)
Lemma c0_3_nearest :
  (10066329 # 33554432 < 0.3)%Q ∧ (0.3 < c0_3)%Q ∧
  (c0_3 - 0.3 < 0.3 - (10066329 # 33554432))%Q.
Proof. repeat split. Qed.

Lemma c0_4_nearest :
  (13421772 # 33554432 < 0.4)%Q ∧ (0.4 < c0_4)%Q ∧
  (c0_4 - 0.4 < 0.4 - (13421772 # 33554432))%Q.
Proof. repeat split. Qed.

(** Against a [float32] draw the converted constant and the decimal
    literal decide alike. *)
Lemma lt_0_5 (d : Q) : Qltb d c0_5 = Qltb d 0.5.
Proof.
  apply Qltb_ext. unfold c0_5, Qlt; simpl. lia.
Qed.

Lemma lt_0_3 (d : Q) : representable d → Qltb d c0_3 = Qltb d 0.3.
Proof.
  intros Hd. apply Qltb_ext.
  rewrite (lt_neighbour_iff 3 10066330) by (done || lia).
  unfold Qlt; simpl. lia.
Qed.

Lemma lt_0_4 (d : Q) : representable d → Qltb d c0_4 = Qltb d 0.4.
Proof.
  intros Hd. apply Qltb_ext.
  rewrite (lt_neighbour_iff 4 13421773) by (done || lia).
  unfold Qlt; simpl. lia.
Qed.

End binary32.

(** ** Configuration *)

Module os.

(** The process environment. *)
Definition Environ := gmap string string.

(** [os.Getenv]: the value, or the empty string when unset. *)
Definition Getenv (env : gmap string string) (key : string) : string :=
  default "" (env !! key).

End os.

Definition getEnv (env : gmap string string) (key defaultValue : string) : string :=
  let value := os.Getenv env key in
  if decide (value ≠ "") then value else defaultValue.

(** [os.Hostname()] either fails or yields a name. *)
Definition getHostname (osHostname : option string) : string :=
  match osHostname with
  | None => "unknown"
  | Some hostname => hostname
  end.

(** The package-level variables [version], [behavior], [port], [hostname]. *)
Record Config := {
  version : string;
  behavior : string;
  port : string;
  hostname : string
}.

Definition loadConfig (env : gmap string string) (osHostname : option string) : Config :=
  {| version := getEnv env "VERSION" "1.0";
     behavior := getEnv env "BEHAVIOR" "normal";
     port := getEnv env "PORT" "8080";
     hostname := getHostname osHostname |}.

(** ** Prometheus series *)

(** [http_requests_total{method,endpoint,status}],
    [http_request_duration_seconds{method,endpoint}] (the observations,
    in seconds, in the order they were made) and
    [app_version_info{version,behavior,hostname}]. *)
Record Metrics := {
  requestCounter : gmap (string * string * string) nat;
  requestDuration : gmap (string * string) (list Q);
  versionGauge : gmap (string * string * string) Z
}.

Definition emptyMetrics : Metrics :=
  {| requestCounter := ∅; requestDuration := ∅; versionGauge := ∅ |}.

(** [vec.WithLabelValues(l...).Inc()] *)
Definition CounterInc (l : string * string * string) (m : Metrics) : Metrics :=
  {| requestCounter := <[l := S (default 0%nat (requestCounter m !! l))]> (requestCounter m);
     requestDuration := requestDuration m;
     versionGauge := versionGauge m |}.

(** [vec.WithLabelValues(l...).Observe(v)] *)
Definition HistogramObserve (l : string * string) (v : Q) (m : Metrics) : Metrics :=
  {| requestCounter := requestCounter m;
     requestDuration := <[l := (default [] (requestDuration m !! l) ++ [v])%list]> (requestDuration m);
     versionGauge := versionGauge m |}.

(** [vec.WithLabelValues(l...).Set(v)] *)
Definition GaugeSet (l : string * string * string) (v : Z) (m : Metrics) : Metrics :=
  {| requestCounter := requestCounter m;
     requestDuration := requestDuration m;
     versionGauge := <[l := v]> (versionGauge m) |}.

(** ** Responses *)

Inductive JSON :=
  | JString (s : string)
  | JNumber (n : Z)
  | JBool (b : bool)
  | JTime (t : time.Duration).   (* [time.Now().Format(time.RFC3339)] of clock reading [t] *)

(** The [Response] struct ([Headers] is never set and is omitted). *)
Record Response := {
  Version : string;
  Behavior : string;
  Hostname : string;
  Timestamp : time.Duration;
  Message : string
}.

Inductive Body :=
  | ErrorText (s : string)              (* written by [http.Error] *)
  | Envelope (r : Response)             (* the encoded [Response] *)
  | JSONObject (o : gmap string JSON)   (* an encoded Go map *)
  | Exposition (m : Metrics)            (* the scrape of the registry *)
  | Moved (location : string)           (* the link written by [http.Redirect] *)
  | NoBody.                             (* a header without a body *)

(** What a handler leaves in its [http.ResponseWriter]: the status code,
    the [Content-Type] it set explicitly, and the body. *)
Record ResponseWriter := {
  code : Z;
  contentType : option string;
  body : Body
}.

(** [http.Error(w, text, status)] *)
Definition httpError (text : string) (status : Z) : ResponseWriter :=
  {| code := status;
     contentType := Some "text/plain; charset=utf-8";
     body := ErrorText (text ++ String "010"%char "") |}.

Definition jsonOK (b : Body) : ResponseWriter :=
  {| code := http.StatusOK; contentType := Some "application/json"; body := b |}.

(** [fmt.Sprintf("%d", n)] *)
Definition Sprintf_d (n : Z) : string := pretty n.
Arguments Sprintf_d : simpl never.

(** The message table of [getMessage]. *)
Definition messages : gmap string (list string) :=
  <["normal" := ["Service operating normally";
                 "All systems functional";
                 "Request processed successfully"] ]>
  (<["slow" := ["Service is experiencing delays";
                "Processing taking longer than usual";
                "High latency detected"] ]>
  (<["error-prone" := ["Service unstable";
                       "Errors may occur";
                       "Degraded performance"] ]>
  (<["chaotic" := ["Unpredictable behavior";
                   "System under stress";
                   "Erratic performance"] ]> ∅))).

(** [http.Redirect] with status 301. *)
Definition redirect (r : http.Request) (location : string) : ResponseWriter :=
  {| code := 301;
     contentType :=
       if decide (http.Method r = "GET" ∨ http.Method r = "HEAD")
       then Some "text/html; charset=utf-8" else None;
     body := Moved location |}.

(** What the default [http.ServeMux] answers by itself, without running
    a registered handler: a redirect to the canonical form of the
    path, a 400 to an asterisk-form request, a 404 when no pattern
    matches. *)
Inductive MuxAnswer :=
  | MovedPermanently (location : string)
  | BadRequest
  | NotFound.

Definition muxResponse (r : http.Request) (a : MuxAnswer) : ResponseWriter :=
  match a with
  | MovedPermanently location => redirect r location
  | BadRequest => {| code := 400; contentType := None; body := NoBody |}
  | NotFound => httpError "404 page not found" 404
  end.

(** The decision of the mux is the library's: [muxAnswer r] is its own
    answer to [r], or [None] when it hands [r] to a registered
    handler. *)
Class ServeMux := {
  muxAnswer : http.Request → option MuxAnswer
}.

(** ** The state threaded through a request *)

Section Service.

Context {S : Type} `{RandSource S} `{!ServeMux}.

(** The generator, the wall clock and the metric registry. *)
Record World := {
  rng : S;
  now : time.Duration;
  metrics : Metrics
}.

Definition M (A : Type) : Type := World → A * World.

Definition ret {A} (a : A) : M A := λ w, (a, w).
Definition bind {A B} (m : M A) (k : A → M B) : M B :=
  λ w, let (a, w') := m w in k a w'.

Notation "x <- m ;; k" := (bind m (λ x, k))
  (at level 100, m at next level, k at level 200, right associativity).

(** [rand.Float32()] *)
Definition randFloat32 : M Q :=
  λ w, let (f, s) := Float32 (rng w) in
       (f, {| rng := s; now := now w; metrics := metrics w |}).

(** [rand.Intn(n)] *)
Definition randIntn (n : Z) : M Z :=
  λ w, let (k, s) := Intn n (rng w) in
       (k, {| rng := s; now := now w; metrics := metrics w |}).

(** [time.Now()].  The clock of a [World] counts the pauses requested
    through [time.Sleep] and nothing else: the time the program spends
    computing, and the time by which a pause overruns, are not
    represented.  A difference of two readings is therefore the delay
    requested in between, a lower bound on the wall-clock time elapsed,
    and no statement below is about a measured duration. *)
Definition timeNow : M time.Duration := λ w, (now w, w).

(** [time.Sleep(d)]: returns at once when [d] is not positive, and
    otherwise pauses for at least [d]; the clock advances by [d]. *)
Definition timeSleep (d : time.Duration) : M unit :=
  λ w, (tt, {| rng := rng w; now := now w + Z.max 0 d; metrics := metrics w |}).

Definition updMetrics (f : Metrics → Metrics) : M unit :=
  λ w, (tt, {| rng := rng w; now := now w; metrics := f (metrics w) |}).

(** ** The behavior engine *)

Definition applyBehavior (cfg : Config) : M Z :=
  if decide (behavior cfg = "normal") then
    ret http.StatusOK
  else if decide (behavior cfg = "slow") then
    k <- randIntn 800 ;;
    let delay := (200 + k) * time.Millisecond in
    _ <- timeSleep delay ;;
    ret http.StatusOK
  else if decide (behavior cfg = "error-prone") then
    f <- randFloat32 ;;
    if Qltb f 0.5 then ret http.StatusInternalServerError
    else ret http.StatusOK
  else if decide (behavior cfg = "chaotic") then
    f <- randFloat32 ;;
    _ <- (if Qltb f 0.3 then
            k <- randIntn 1000 ;;
            timeSleep ((500 + k) * time.Millisecond)
          else ret tt) ;;
    g <- randFloat32 ;;
    if Qltb g 0.4 then ret http.StatusInternalServerError
    else ret http.StatusOK
  else
    ret http.StatusOK.

Definition getMessage (cfg : Config) : M string :=
  let msgs := default [] (messages !! behavior cfg) in
  if decide (length msgs = 0%nat) then ret "Unknown state"
  else
    i <- randIntn (Z.of_nat (length msgs)) ;;
    (* in range by [Intn_range]; an index out of range would panic *)
    ret (default "" (msgs !! Z.to_nat i)).

(** ** Handlers *)

(** The deferred closure of every handler: observe the time since
    [start] under the handler's endpoint label. *)
Definition observeSince (r : http.Request) (endpoint : string)
    (start : time.Duration) : M unit :=
  t <- timeNow ;;
  updMetrics (HistogramObserve (http.Method r, endpoint) (time.Seconds (t - start))).

Definition handleRoot (cfg : Config) (r : http.Request) : M ResponseWriter :=
  start <- timeNow ;;
  status <- applyBehavior cfg ;;
  _ <- updMetrics (CounterInc (http.Method r, "/", Sprintf_d status)) ;;
  w <- (if decide (status ≠ http.StatusOK) then
          ret (httpError (http.StatusText status) status)
        else
          t <- timeNow ;;
          msg <- getMessage cfg ;;
          ret (jsonOK (Envelope {| Version := version cfg;
                                   Behavior := behavior cfg;
                                   Hostname := hostname cfg;
                                   Timestamp := t;
                                   Message := msg |}))) ;;
  _ <- observeSince r "/" start ;;
  ret w.

Definition handleHealth (cfg : Config) (r : http.Request) : M ResponseWriter :=
  start <- timeNow ;;
  (* [behavior == "error-prone" && rand.Float32() < 0.3]: no draw is
     made unless the left operand holds *)
  unhealthy <- (if decide (behavior cfg = "error-prone") then
                  f <- randFloat32 ;; ret (Qltb f 0.3)
                else ret false) ;;
  w <- (if unhealthy : bool then
          _ <- updMetrics (CounterInc (http.Method r, "/health", "503")) ;;
          ret {| code := http.StatusServiceUnavailable;
                 contentType := None;
                 body := JSONObject (<["status" := JString "unhealthy"]>
                                    (<["reason" := JString "simulated failure"]> ∅)) |}
        else
          _ <- updMetrics (CounterInc (http.Method r, "/health", "200")) ;;
          ret (jsonOK (JSONObject (<["status" := JString "healthy"]>
                                  (<["version" := JString (version cfg)]>
                                  (<["hostname" := JString (hostname cfg)]> ∅)))))) ;;
  _ <- observeSince r "/health" start ;;
  ret w.

Definition handleAPIData (cfg : Config) (r : http.Request) : M ResponseWriter :=
  start <- timeNow ;;
  status <- applyBehavior cfg ;;
  _ <- updMetrics (CounterInc (http.Method r, "/api/data", Sprintf_d status)) ;;
  w <- (if decide (status ≠ http.StatusOK) then
          ret (httpError (http.StatusText status) status)
        else
          items <- randIntn 100 ;;
          t <- timeNow ;;
          ret (jsonOK (JSONObject (<["items" := JNumber items]>
                                  (<["processed" := JBool true]>
                                  (<["version" := JString (version cfg)]>
                                  (<["hostname" := JString (hostname cfg)]>
                                  (<["timestamp" := JTime t]> ∅)))))))) ;;
  _ <- observeSince r "/api/data" start ;;
  ret w.

Definition handleProcess (cfg : Config) (r : http.Request) : M ResponseWriter :=
  start <- timeNow ;;
  status <- applyBehavior cfg ;;
  _ <- updMetrics (CounterInc (http.Method r, "/api/process", Sprintf_d status)) ;;
  w <- (if decide (status ≠ http.StatusOK) then
          ret (httpError (http.StatusText status) status)
        else
          _ <- (if decide (behavior cfg = "slow") then
                  k <- randIntn 400 ;;
                  timeSleep ((100 + k) * time.Millisecond)
                else ret tt) ;;
          t <- timeNow ;;
          ret (jsonOK (JSONObject (<["status" := JString "completed"]>
                                  (<["duration" := JNumber (time.Milliseconds (t - start))]>
                                  (<["version" := JString (version cfg)]>
                                  (<["hostname" := JString (hostname cfg)]> ∅))))))) ;;
  _ <- observeSince r "/api/process" start ;;
  ret w.

(** [promhttp.Handler()]: the library's scrape handler.  It renders the
    registry and touches none of the three series of this program. *)
Definition handleMetrics (r : http.Request) : M ResponseWriter :=
  λ w, ({| code := http.StatusOK;
           contentType := Some "text/plain; version=0.0.4; charset=utf-8";
           body := Exposition (metrics w) |}, w).

(** ** The HTTP surface *)

(** The routes registered by [main] on the default mux, and the
    selection among them for the path of a request that the mux hands
    to a handler: a pattern without a trailing slash matches its path
    only, and the pattern ["/"] matches every path that no other
    pattern matches. *)
Inductive Route := RootRoute | HealthRoute | DataRoute | ProcessRoute | MetricsRoute.

Definition endpoint (rt : Route) : string :=
  match rt with
  | RootRoute => "/"
  | HealthRoute => "/health"
  | DataRoute => "/api/data"
  | ProcessRoute => "/api/process"
  | MetricsRoute => "/metrics"
  end.

Definition route (path : string) : Route :=
  if decide (path = "/health") then HealthRoute
  else if decide (path = "/api/data") then DataRoute
  else if decide (path = "/api/process") then ProcessRoute
  else if decide (path = "/metrics") then MetricsRoute
  else RootRoute.

Definition handler (cfg : Config) (rt : Route) : http.Request → M ResponseWriter :=
  match rt with
  | RootRoute => handleRoot cfg
  | HealthRoute => handleHealth cfg
  | DataRoute => handleAPIData cfg
  | ProcessRoute => handleProcess cfg
  | MetricsRoute => handleMetrics
  end.

Definition ServeHTTP (cfg : Config) (r : http.Request) : M ResponseWriter :=
  match muxAnswer r with
  | Some a => ret (muxResponse r a)
  | None => handler cfg (route (http.Path r)) r
  end.

(** The requests of a run, served in turn. *)
Fixpoint serveAll (cfg : Config) (rs : list http.Request) : M (list ResponseWriter) :=
  match rs with
  | [] => ret []
  | r :: rs' =>
      w <- ServeHTTP cfg r ;;
      ws <- serveAll cfg rs' ;;
      ret (w :: ws)
  end.

(** [main] up to [ListenAndServe]: the version gauge is set, the
    generator is seeded ([seed] is the state [rand.Seed] leaves). *)
Definition startup (cfg : Config) (seed : S) (t0 : time.Duration) : World :=
  {| rng := seed;
     now := t0;
     metrics := GaugeSet (version cfg, behavior cfg, hostname cfg) 1 emptyMetrics |}.

Definition main (env : gmap string string) (osHostname : option string)
    (seed : S) (t0 : time.Duration) (rs : list http.Request)
    : list ResponseWriter * World :=
  let cfg := loadConfig env osHostname in
  serveAll cfg rs (startup cfg seed t0).

End Service.

#[export] Instance Route_eq_dec : EqDecision Route.
Proof. solve_decision. Defined.

(** ** A replayed random source

    A test double for [math/rand]: it replays a recorded sequence of
    [Float32] results and a recorded sequence of integers, reduced into
    the requested range.  An exhausted recording yields zero. *)

Record Tape := { floats : list Q; ints : list Z }.

Definition unitClamp (q : Q) : Q :=
  if Qle_bool 0 q && Qltb q 1 then q else 0%Q.

Definition Tape_Float32 (t : Tape) : Q * Tape :=
  match floats t with
  | [] => (0%Q, t)
  | q :: qs => (unitClamp q, {| floats := qs; ints := ints t |})
  end.

Definition Tape_Intn (n : Z) (t : Tape) : Z * Tape :=
  match ints t with
  | [] => (0, t)
  | k :: ks => (k mod n, {| floats := floats t; ints := ks |})
  end.

Lemma unitClamp_range q : (0 <= unitClamp q ∧ unitClamp q < 1)%Q.
Proof.
  unfold unitClamp.
  destruct (Qle_bool 0 q && Qltb q 1) eqn:E.
  - apply andb_true_iff in E as [E1 E2].
    split; [by apply Qle_bool_iff | by apply Qltb_lt].
  - split; [apply Qle_refl | reflexivity].
Qed.

Lemma unitClamp_id q : (0 <= q)%Q → (q < 1)%Q → unitClamp q = q.
Proof.
  intros H0 H1. unfold unitClamp.
  apply Qle_bool_iff in H0. apply Qltb_lt in H1. by rewrite H0, H1.
Qed.

#[export] Program Instance TapeSource : RandSource Tape :=
  {| Float32 := Tape_Float32; Intn := Tape_Intn |}.
Next Obligation.
  intros t. unfold Tape_Float32. destruct (floats t); simpl.
  - split; [apply Qle_refl | reflexivity].
  - apply unitClamp_range.
Qed.
Next Obligation.
  intros n t Hn. unfold Tape_Intn. destruct (ints t); simpl.
  - lia.
  - by apply Z.mod_pos_bound.
Qed.

(** ** Canonical paths

    An instance of the mux to run requests with: a request whose path
    differs from its cleaned form is answered with a 301 to the
    cleaned path and reaches no handler. *)

(** The elements of a path, split at the slashes. *)
Fixpoint pathElements (p : string) (cur : string) : list string :=
  match p with
  | EmptyString => [cur]
  | String c p' =>
      if Ascii.eqb c "/"%char then cur :: pathElements p' EmptyString
      else pathElements p' (cur ++ String c EmptyString)
  end.

(** One element of [path.Clean] on a rooted path: empty and ["."]
    elements are dropped, [".."] drops the element before it. *)
Definition cleanStep (kept : list string) (elem : string) : list string :=
  if decide (elem = "") then kept
  else if decide (elem = ".") then kept
  else if decide (elem = "..") then tail kept
  else elem :: kept.

Definition joinSlash (elems : list string) : string :=
  fold_right (λ elem acc, "/" ++ elem ++ acc) "" elems.

(** [path.Clean] on a rooted path. *)
Definition pathClean (p : string) : string :=
  let kept := rev (fold_left cleanStep (pathElements p "") []) in
  if decide (kept = []) then "/" else joinSlash kept.

Definition endsWithSlash (p : string) : bool :=
  match rev (list_ascii_of_string p) with
  | c :: _ => Ascii.eqb c "/"%char
  | [] => false
  end.

(** [cleanPath] of net/http. *)
Definition cleanPath (p : string) : string :=
  if decide (p = "") then "/"
  else
    let p := match p with
             | String c _ => if Ascii.eqb c "/"%char then p else "/" ++ p
             | EmptyString => p
             end in
    let np := pathClean p in
    if endsWithSlash p && negb (bool_decide (np = "/")) then np ++ "/" else np.

Definition rooted (p : string) : bool :=
  match p with
  | String c _ => Ascii.eqb c "/"%char
  | EmptyString => false
  end.

(** The mux of net/http on the five patterns of [main].  An
    asterisk-form request has the path ["*"].  A CONNECT request is not
    canonicalized and matches a pattern only if its path is rooted. *)
#[export] Instance cleaningMux : ServeMux :=
  {| muxAnswer r :=
       if decide (http.Path r = "*") then Some BadRequest
       else if decide (http.Method r = "CONNECT") then
         if rooted (http.Path r) then None else Some NotFound
       else if decide (cleanPath (http.Path r) = http.Path r) then None
       else Some (MovedPermanently (cleanPath (http.Path r))) |}.

Example cleanPath_double_slash : cleanPath "/api//data" = "/api/data".
Proof. reflexivity. Qed.

Example cleanPath_dots : cleanPath "/a/./b/../../health/" = "/health/".
Proof. reflexivity. Qed.

Example cleanPath_canonical :
  map cleanPath ["/"; "/health"; "/api/data"; "/api/process"; "/metrics"; "/foo/"]
  = ["/"; "/health"; "/api/data"; "/api/process"; "/metrics"; "/foo/"].
Proof. reflexivity. Qed.

(** ** Running the engine, mode by mode *)

Section Engine.

Context {S : Type} `{RandSource S}.

Implicit Types (cfg : Config) (w : World (S:=S)) (r : http.Request).

(** The delay injected by a computation started in [w]. *)
Definition injectedDelay {A} (m : M A) w : time.Duration :=
  now (m w).2 - now w.

Definition recognized (b : string) : Prop :=
  b = "normal" ∨ b = "slow" ∨ b = "error-prone" ∨ b = "chaotic".

Ltac mode_cases :=
  repeat case_decide; try congruence; try discriminate.

Ltac status_ok :=
  simpl;
  first [ done | symmetry; done
        | by apply dec_stable | symmetry; by apply dec_stable ].

Lemma applyBehavior_normal cfg w :
  behavior cfg = "normal" → applyBehavior cfg w = (200, w).
Proof. intros Hb. unfold applyBehavior. by mode_cases. Qed.

Lemma applyBehavior_unrecognized cfg w :
  ¬ recognized (behavior cfg) → applyBehavior cfg w = (200, w).
Proof.
  intros Hb. unfold applyBehavior, recognized in *.
  mode_cases; first [done | exfalso; tauto].
Qed.

Lemma applyBehavior_slow cfg w :
  behavior cfg = "slow" →
  applyBehavior cfg w =
    (200, {| rng := (Intn 800 (rng w)).2;
             now := now w + (200 + (Intn 800 (rng w)).1) * time.Millisecond;
             metrics := metrics w |}).
Proof.
  intros Hb. unfold applyBehavior. mode_cases.
  unfold bind, randIntn, timeSleep, ret.
  pose proof (Intn_range 800 (rng w) eq_refl) as Hk.
  destruct (Intn 800 (rng w)) as [k s]; simpl in *.
  do 2 f_equal. unfold time.Millisecond. f_equal. lia.
Qed.

Lemma applyBehavior_error_prone cfg w :
  behavior cfg = "error-prone" →
  applyBehavior cfg w =
    (if Qltb (Float32 (rng w)).1 0.5 then 500 else 200,
     {| rng := (Float32 (rng w)).2; now := now w; metrics := metrics w |}).
Proof.
  intros Hb. unfold applyBehavior. mode_cases.
  unfold bind, randFloat32, ret.
  destruct (Float32 (rng w)) as [f s]; simpl.
  by destruct (Qltb f 0.5).
Qed.

(** The state in which the second [Float32] of the chaotic branch is
    drawn: after the first draw and, when that one triggered the delay,
    after the [Intn] that sized it. *)
Definition chaoticSecond (s : S) : S :=
  let (d1, s1) := Float32 s in
  if Qltb d1 0.3 then (Intn 1000 s1).2 else s1.

Lemma applyBehavior_chaotic cfg w :
  behavior cfg = "chaotic" →
  applyBehavior cfg w =
    (if Qltb (Float32 (chaoticSecond (rng w))).1 0.4 then 500 else 200,
     {| rng := (Float32 (chaoticSecond (rng w))).2;
        now := now w +
               (if Qltb (Float32 (rng w)).1 0.3
                then (500 + (Intn 1000 (Float32 (rng w)).2).1) * time.Millisecond
                else 0);
        metrics := metrics w |}).
Proof.
  intros Hb. unfold applyBehavior. mode_cases.
  unfold bind, randFloat32, randIntn, timeSleep, ret, chaoticSecond.
  destruct (Float32 (rng w)) as [d1 s1]; simpl.
  destruct (Qltb d1 0.3); simpl.
  - pose proof (Intn_range 1000 s1 eq_refl) as Hk.
    destruct (Intn 1000 s1) as [k s2]; simpl in *.
    destruct (Float32 s2) as [d2 s3]; simpl.
    replace (Z.max 0 ((500 + k) * time.Millisecond))
      with ((500 + k) * time.Millisecond) by (unfold time.Millisecond; lia).
    by destruct (Qltb d2 0.4).
  - destruct (Float32 s1) as [d2 s3]; simpl.
    rewrite Z.add_0_r. by destruct (Qltb d2 0.4).
Qed.

(** The engine is total, answers 200 or 500, never moves the clock
    backwards and leaves the registry alone. *)
Lemma applyBehavior_status cfg w :
  (applyBehavior cfg w).1 = 200 ∨ (applyBehavior cfg w).1 = 500.
Proof.
  destruct (decide (behavior cfg = "normal")) as [E|N1];
    [rewrite applyBehavior_normal by done; by left|].
  destruct (decide (behavior cfg = "slow")) as [E|N2];
    [rewrite applyBehavior_slow by done; by left|].
  destruct (decide (behavior cfg = "error-prone")) as [E|N3].
  { rewrite applyBehavior_error_prone by done. simpl.
    destruct (Qltb _ _); auto. }
  destruct (decide (behavior cfg = "chaotic")) as [E|N4].
  { rewrite applyBehavior_chaotic by done. simpl.
    destruct (Qltb _ 0.4); auto. }
  rewrite applyBehavior_unrecognized; [by left|].
  unfold recognized; tauto.
Qed.

Lemma applyBehavior_metrics cfg w :
  metrics (applyBehavior cfg w).2 = metrics w.
Proof.
  destruct (decide (behavior cfg = "normal")) as [E|N1];
    [by rewrite applyBehavior_normal|].
  destruct (decide (behavior cfg = "slow")) as [E|N2];
    [by rewrite applyBehavior_slow|].
  destruct (decide (behavior cfg = "error-prone")) as [E|N3];
    [by rewrite applyBehavior_error_prone|].
  destruct (decide (behavior cfg = "chaotic")) as [E|N4];
    [by rewrite applyBehavior_chaotic|].
  rewrite applyBehavior_unrecognized; [done|].
  unfold recognized; tauto.
Qed.

(** ** What each handler leaves behind

    [served ep r status w1 w'] : the handler for endpoint [ep], having
    reached world [w1] with status [status] decided, ends in [w'] with
    one more counter sample and one more observation than [w1]. *)
Definition recorded (ep : string) r (status : Z) (start : time.Duration)
    (m : Metrics) (t : time.Duration) : Metrics :=
  HistogramObserve (http.Method r, ep) (time.Seconds (t - start))
    (CounterInc (http.Method r, ep, Sprintf_d status) m).

Lemma handleRoot_spec cfg r w :
  let a := applyBehavior cfg w in
  let res := handleRoot cfg r w in
  code res.1 = a.1 ∧
  now res.2 = now a.2 ∧
  metrics res.2 = recorded "/" r a.1 (now w) (metrics w) (now a.2).
Proof.
  pose proof (applyBehavior_metrics cfg w) as Hm.
  unfold handleRoot, bind, timeNow, updMetrics, observeSince, recorded.
  destruct (applyBehavior cfg w) as [st w1]; simpl in *.
  case_decide; simpl.
  - by rewrite Hm.
  - unfold getMessage, bind, ret, randIntn.
    case_decide; simpl.
    + rewrite Hm. split; [status_ok|done].
    + destruct (Intn _ (rng w1)) as [i s]; simpl.
      rewrite Hm. split; [status_ok|done].
Qed.

Lemma handleAPIData_spec cfg r w :
  let a := applyBehavior cfg w in
  let res := handleAPIData cfg r w in
  code res.1 = a.1 ∧
  now res.2 = now a.2 ∧
  metrics res.2 = recorded "/api/data" r a.1 (now w) (metrics w) (now a.2).
Proof.
  pose proof (applyBehavior_metrics cfg w) as Hm.
  unfold handleAPIData, bind, timeNow, updMetrics, observeSince, recorded.
  destruct (applyBehavior cfg w) as [st w1]; simpl in *.
  case_decide; simpl.
  - by rewrite Hm.
  - unfold randIntn, ret; simpl.
    destruct (Intn 100 (rng w1)) as [i s]; simpl.
    rewrite Hm. split; [status_ok|done].
Qed.

(** The extra pause of the process route: taken in slow mode, after a
    200 from the engine, from the generator state the engine left. *)
Definition processPause cfg (status : Z) (s : S) : time.Duration :=
  if decide (status = 200) then
    if decide (behavior cfg = "slow")
    then (100 + (Intn 400 s).1) * time.Millisecond
    else 0
  else 0.

Lemma handleProcess_spec cfg r w :
  let a := applyBehavior cfg w in
  let res := handleProcess cfg r w in
  let t := now a.2 + processPause cfg a.1 (rng a.2) in
  code res.1 = a.1 ∧
  now res.2 = t ∧
  metrics res.2 = recorded "/api/process" r a.1 (now w) (metrics w) t.
Proof.
  pose proof (applyBehavior_metrics cfg w) as Hm.
  unfold handleProcess, bind, timeNow, updMetrics, observeSince, recorded,
    processPause.
  destruct (applyBehavior cfg w) as [st w1]; simpl in *.
  destruct (decide (st = 200)) as [->|Hst]; simpl.
  - destruct (decide (behavior cfg = "slow")); simpl.
    + unfold randIntn, timeSleep, ret; simpl.
      pose proof (Intn_range 400 (rng w1) eq_refl) as Hk.
      destruct (Intn 400 (rng w1)) as [k s]; simpl in *.
      replace (Z.max 0 ((100 + k) * time.Millisecond))
        with ((100 + k) * time.Millisecond) by (unfold time.Millisecond; lia).
      by rewrite Hm.
    + rewrite Z.add_0_r. by rewrite Hm.
  - destruct (decide (st ≠ http.StatusOK)); [simpl|done].
    rewrite Z.add_0_r. by rewrite Hm.
Qed.

(** The two bodies of the health route. *)
Definition unhealthyResponse : ResponseWriter :=
  {| code := 503;
     contentType := None;
     body := JSONObject (<["status" := JString "unhealthy"]>
                        (<["reason" := JString "simulated failure"]> ∅)) |}.

Definition healthyResponse cfg : ResponseWriter :=
  {| code := 200;
     contentType := Some "application/json";
     body := JSONObject (<["status" := JString "healthy"]>
                        (<["version" := JString (version cfg)]>
                        (<["hostname" := JString (hostname cfg)]> ∅))) |}.

(** The health rule: unhealthy when the mode is error-prone and the
    draw it then makes is below the threshold. *)
Definition healthFails cfg (s : S) : bool :=
  if decide (behavior cfg = "error-prone") then Qltb (Float32 s).1 0.3
  else false.

Lemma handleHealth_spec cfg r w :
  let res := handleHealth cfg r w in
  let bad := healthFails cfg (rng w) in
  res.1 = (if bad then unhealthyResponse else healthyResponse cfg) ∧
  now res.2 = now w ∧
  metrics res.2 =
    recorded "/health" r (if bad then 503 else 200) (now w) (metrics w) (now w).
Proof.
  unfold handleHealth, healthFails, bind, timeNow, updMetrics, observeSince,
    recorded, randFloat32, ret.
  destruct (decide (behavior cfg = "error-prone")); simpl.
  - destruct (Float32 (rng w)) as [f s]; simpl.
    by destruct (Qltb f 0.3).
  - done.
Qed.


(** The routes that go through the behavior engine. *)
Definition contentRoute (rt : Route) : Prop :=
  rt = RootRoute ∨ rt = DataRoute ∨ rt = ProcessRoute.

Lemma content_spec cfg rt r w :
  contentRoute rt →
  let a := applyBehavior cfg w in
  let res := handler cfg rt r w in
  let t := now a.2 +
           match rt with
           | ProcessRoute => processPause cfg a.1 (rng a.2)
           | _ => 0
           end in
  code res.1 = a.1 ∧
  now res.2 = t ∧
  metrics res.2 = recorded (endpoint rt) r a.1 (now w) (metrics w) t.
Proof.
  intros [-> | [-> | ->]]; simpl.
  - rewrite Z.add_0_r. apply handleRoot_spec.
  - rewrite Z.add_0_r. apply handleAPIData_spec.
  - apply handleProcess_spec.
Qed.

End Engine.

(** ** Uniform draws

    A draw "modeled as a uniform input" ranges over an evenly spaced
    grid of the unit interval, each point equally likely; the
    probability of an event is the fraction of the grid on which it
    holds.  The statements below hold for every resolution that the
    thresholds divide, so also in the limit of a continuous draw. *)

Fixpoint countIf {A} (ev : A → bool) (l : list A) : nat :=
  match l with
  | [] => 0
  | x :: l' => (if ev x then 1 else 0) + countIf ev l'
  end.

Definition uniformGrid (n : positive) : list Q :=
  map (λ k, Z.of_nat k # n) (seq 0 (Pos.to_nat n)).

(** The fraction of [l] on which [ev] holds. *)
Definition frequency {A} (ev : A → bool) (l : list A) : Q :=
  Z.of_nat (countIf ev l) # Pos.of_nat (length l).

Lemma countIf_app {A} (ev : A → bool) l1 l2 :
  countIf ev (l1 ++ l2) = (countIf ev l1 + countIf ev l2)%nat.
Proof. induction l1 as [|x l1 IH]; simpl; [done | rewrite IH; lia]. Qed.

Lemma countIf_map {A B} (g : A → B) (ev : B → bool) l :
  countIf ev (map g l) = countIf (λ x, ev (g x)) l.
Proof. induction l as [|x l IH]; simpl; [done | by rewrite IH]. Qed.

Lemma countIf_ext_in {A} (ev ev' : A → bool) l :
  (∀ x, In x l → ev x = ev' x) → countIf ev l = countIf ev' l.
Proof.
  induction l as [|x l IH]; simpl; intros Hext; [done|].
  rewrite (Hext x) by auto. rewrite IH; [done | auto].
Qed.

Lemma countIf_const_false {A} (l : list A) : countIf (λ _, false) l = 0%nat.
Proof. induction l; simpl; auto. Qed.

Lemma countIf_below (t n : nat) :
  (t ≤ n)%nat → countIf (λ k, k <? t)%nat (seq 0 n) = t.
Proof.
  revert t. induction n as [|n IH]; intros t Ht.
  - simpl. lia.
  - rewrite seq_S, countIf_app. cbn [countIf Nat.add].
    destruct (decide (t = Datatypes.S n)) as [->|Hne].
    + rewrite (countIf_ext_in _ (λ k, k <? n)%nat).
      * rewrite IH by lia. rewrite (proj2 (Nat.ltb_lt _ _)) by lia. lia.
      * intros k Hk%in_seq.
        destruct (Nat.ltb_spec k (Datatypes.S n)), (Nat.ltb_spec k n); lia.
    + rewrite IH by lia. rewrite (proj2 (Nat.ltb_ge _ _)) by lia. lia.
Qed.

(** Pairs of independent draws: the count of a rectangle event is the
    product of the counts of its sides. *)
Lemma countIf_prod {A B} (p : A → bool) (q : B → bool) l1 l2 :
  countIf (λ ab, p ab.1 && q ab.2) (list_prod l1 l2)
  = (countIf p l1 * countIf q l2)%nat.
Proof.
  induction l1 as [|a l1 IH]; simpl; [done|].
  rewrite countIf_app, countIf_map, IH. simpl.
  destruct (p a); simpl.
  - rewrite (countIf_ext_in _ q) by done. lia.
  - rewrite countIf_const_false. lia.
Qed.

Lemma uniformGrid_length n : length (uniformGrid n) = Pos.to_nat n.
Proof. unfold uniformGrid. by rewrite length_map, length_seq. Qed.

Lemma uniformGrid_unit n d :
  In d (uniformGrid n) → (0 <= d)%Q ∧ (d < 1)%Q.
Proof.
  unfold uniformGrid. intros (k & <- & Hk%in_seq)%in_map_iff.
  unfold Qle, Qlt; simpl. lia.
Qed.

(** On the grid of resolution [n], a threshold [c = t/n] cuts off
    exactly [t] points. *)
Lemma uniformGrid_below (n : positive) (t : nat) (c : Q) :
  (c == Z.of_nat t # n)%Q → (t ≤ Pos.to_nat n)%nat →
  countIf (λ d, Qltb d c) (uniformGrid n) = t.
Proof.
  intros Hc Ht. unfold uniformGrid.
  rewrite countIf_map.
  rewrite (countIf_ext_in _ (λ k, k <? t)%nat); [by apply countIf_below|].
  intros k _.
  destruct (Nat.ltb_spec k t) as [Hlt|Hge].
  - apply Qltb_lt. rewrite Hc. unfold Qlt; simpl. nia.
  - apply Qltb_ge. rewrite Hc. unfold Qle; simpl. nia.
Qed.

(** ** Replayed worlds *)

Definition replay (fs : list Q) (ks : list Z) (t : time.Duration) (m : Metrics)
    : World (S:=Tape) :=
  {| rng := {| floats := fs; ints := ks |}; now := t; metrics := m |}.

Definition demoConfig (b : string) : Config :=
  {| version := "1.0"; behavior := b; port := "8080"; hostname := "demo-app-0" |}.

Definition GET (path : string) : http.Request :=
  {| http.Method := "GET"; http.Path := path |}.

Lemma replay_Float32 d fs ks t m :
  (0 <= d)%Q → (d < 1)%Q →
  Float32 (rng (replay (d :: fs) ks t m)) = (d, {| floats := fs; ints := ks |}).
Proof. intros H0 H1. simpl. unfold Tape_Float32; simpl. by rewrite unitClamp_id. Qed.

Lemma Z_eqb_status (b : bool) : Z.eqb (if b then 500 else 200) 500 = b.
Proof. by destruct b. Qed.

Lemma status_500_iff (b : bool) : (if b then 500 else 200) = 500 ↔ b = true.
Proof. destruct b; split; (done || lia). Qed.

Lemma status_200_iff (b : bool) : (if b then 500 else 200) = 200 ↔ b ≠ true.
Proof. destruct b; split; (done || lia). Qed.

Lemma Qltb_not_lt a b : Qltb a b ≠ true ↔ ¬ (a < b)%Q.
Proof. by rewrite Qltb_lt. Qed.

(** The chaotic branch on a replayed source: the two recorded floats
    decide delay and status separately. *)
Lemma chaotic_replay cfg d1 d2 fs ks t mx :
  behavior cfg = "chaotic" →
  (0 <= d1)%Q → (d1 < 1)%Q → (0 <= d2)%Q → (d2 < 1)%Q →
  let w := replay (d1 :: d2 :: fs) ks t mx in
  (applyBehavior cfg w).1 = (if Qltb d2 0.4 then 500 else 200) ∧
  (Z.eqb (injectedDelay (applyBehavior cfg) w) 0 = negb (Qltb d1 0.3)).
Proof.
  intros Hb H10 H11 H20 H21 w. subst w.
  unfold injectedDelay.
  rewrite applyBehavior_chaotic by done.
  unfold chaoticSecond.
  rewrite replay_Float32 by done. cbn [fst snd now rng replay].
  destruct (Qltb d1 0.3); simpl.
  - pose proof (Intn_range (S:=Tape) 1000 {| floats := d2 :: fs; ints := ks |} eq_refl) as Hk.
    unfold Tape_Intn at 1. unfold Tape_Float32.
    destruct ks as [|k ks]; simpl in *; rewrite unitClamp_id by done; split; try done.
    + unfold Tape_Intn in *; simpl in *.
      apply Z.eqb_neq. unfold time.Millisecond. lia.
    + unfold Tape_Intn in *; simpl in *.
      apply Z.eqb_neq. unfold time.Millisecond. lia.
  - unfold Tape_Float32; simpl. rewrite unitClamp_id by done.
    split; [done|]. apply Z.eqb_eq. lia.
Qed.

Lemma countIf_const_true {A} (l : list A) : countIf (λ _, true) l = length l.
Proof. induction l; simpl; auto. Qed.

(** The two events of a chaotic request whose two [Float32] results are
    the pair [u]. *)
Definition chaoticDelayed (cfg : Config) (fs : list Q) (ks : list Z)
    (t : time.Duration) (mx : Metrics) (u : Q * Q) : bool :=
  negb (Z.eqb (injectedDelay (applyBehavior cfg) (replay (u.1 :: u.2 :: fs) ks t mx)) 0).

Definition chaoticFailed (cfg : Config) (fs : list Q) (ks : list Z)
    (t : time.Duration) (mx : Metrics) (u : Q * Q) : bool :=
  Z.eqb (applyBehavior cfg (replay (u.1 :: u.2 :: fs) ks t mx)).1 500.

Lemma chaotic_events cfg fs ks t mx (n : positive) u :
  behavior cfg = "chaotic" →
  In u (list_prod (uniformGrid n) (uniformGrid n)) →
  chaoticDelayed cfg fs ks t mx u = Qltb u.1 0.3 ∧
  chaoticFailed cfg fs ks t mx u = Qltb u.2 0.4.
Proof.
  intros Hb Hu. destruct u as [d1 d2].
  apply in_prod_iff in Hu as [[H10 H11]%uniformGrid_unit [H20 H21]%uniformGrid_unit].
  destruct (chaotic_replay cfg d1 d2 fs ks t mx Hb H10 H11 H20 H21) as [Hs Hd].
  unfold chaoticDelayed, chaoticFailed; simpl in *.
  rewrite Hs, Hd, negb_involutive, Z_eqb_status. done.
Qed.

Lemma chaotic_frequencies cfg fs ks t mx (m : positive) :
  behavior cfg = "chaotic" →
  let G := uniformGrid (10 * m) in
  (frequency (chaoticDelayed cfg fs ks t mx) (list_prod G G) == 0.3)%Q ∧
  (frequency (chaoticFailed cfg fs ks t mx) (list_prod G G) == 0.4)%Q ∧
  (frequency (λ u, chaoticDelayed cfg fs ks t mx u && chaoticFailed cfg fs ks t mx u)
     (list_prod G G) == 0.12)%Q.
Proof.
  intros Hb G.
  assert (countIf (λ d, Qltb d 0.3) G = Pos.to_nat (3 * m)) as H3.
  { apply uniformGrid_below; [|lia].
    rewrite positive_nat_Z. unfold Qeq; simpl. lia. }
  assert (countIf (λ d, Qltb d 0.4) G = Pos.to_nat (4 * m)) as H4.
  { apply uniformGrid_below; [|lia].
    rewrite positive_nat_Z. unfold Qeq; simpl. lia. }
  assert (length (list_prod G G) = Pos.to_nat (10 * m * (10 * m))) as HL.
  { rewrite length_prod. unfold G. rewrite uniformGrid_length. lia. }
  unfold frequency. rewrite HL, Pos2Nat.id.
  split; [|split].
  - rewrite (countIf_ext_in _ (λ u, Qltb u.1 0.3 && (λ _, true) u.2)).
    + rewrite (countIf_prod (λ d, Qltb d 0.3) (λ _, true)).
      rewrite H3, countIf_const_true. unfold G. rewrite uniformGrid_length.
      rewrite Nat2Z.inj_mul, !positive_nat_Z. unfold Qeq; simpl. lia.
    + intros u Hu. destruct (chaotic_events cfg fs ks t mx _ u Hb Hu) as [-> _].
      by rewrite andb_true_r.
  - rewrite (countIf_ext_in _ (λ u, (λ _, true) u.1 && Qltb u.2 0.4)).
    + rewrite (countIf_prod (λ _, true) (λ d, Qltb d 0.4)).
      rewrite H4, countIf_const_true. unfold G. rewrite uniformGrid_length.
      rewrite Nat2Z.inj_mul, !positive_nat_Z. unfold Qeq; simpl. lia.
    + intros u Hu. by destruct (chaotic_events cfg fs ks t mx _ u Hb Hu) as [_ ->].
  - rewrite (countIf_ext_in _ (λ u, Qltb u.1 0.3 && Qltb u.2 0.4)).
    + rewrite (countIf_prod (λ d, Qltb d 0.3) (λ d, Qltb d 0.4)).
      rewrite H3, H4.
      rewrite Nat2Z.inj_mul, !positive_nat_Z. unfold Qeq; simpl. lia.
    + intros u Hu. by destruct (chaotic_events cfg fs ks t mx _ u Hb Hu) as [-> ->].
Qed.

(** ** Totals over a metric vector *)

Section Totals.

Context `{Countable K} {A : Type}.

(** The sum of [wt] over the samples of a vector. *)
Definition mapTotal (wt : K → A → nat) (m : gmap K A) : nat :=
  map_fold (λ k a acc, wt k a + acc)%nat 0%nat m.

Lemma mapTotal_empty wt : mapTotal wt ∅ = 0%nat.
Proof. unfold mapTotal. by rewrite map_fold_empty. Qed.

Lemma mapTotal_insert_fresh wt k a (m : gmap K A) :
  m !! k = None → mapTotal wt (<[k := a]> m) = (wt k a + mapTotal wt m)%nat.
Proof.
  intros Hk. unfold mapTotal.
  rewrite map_fold_insert_L; [done | | done].
  intros. lia.
Qed.

(** Overwriting a sample replaces its weight. *)
Lemma mapTotal_insert wt k a (m : gmap K A) :
  (mapTotal wt (<[k := a]> m) + from_option (wt k) 0 (m !! k)
   = wt k a + mapTotal wt m)%nat.
Proof.
  destruct (m !! k) as [a0|] eqn:Hk; simpl.
  - rewrite <- (insert_delete_eq m k a).
    rewrite mapTotal_insert_fresh by apply lookup_delete_eq.
    rewrite <- (insert_delete_id m k a0 Hk) at 2.
    rewrite mapTotal_insert_fresh by apply lookup_delete_eq.
    lia.
  - rewrite mapTotal_insert_fresh by done. lia.
Qed.

End Totals.

(** The request counter summed over the method and status labels of one
    endpoint, and the number of duration observations of one endpoint. *)
Definition counterTotal (ep : string) (m : Metrics) : nat :=
  mapTotal (λ l n, if decide (l.1.2 = ep) then n else 0%nat) (requestCounter m).

Definition observationTotal (ep : string) (m : Metrics) : nat :=
  mapTotal (λ l obs, if decide (l.2 = ep) then length obs else 0%nat)
    (requestDuration m).

Lemma counterTotal_CounterInc ep l m :
  counterTotal ep (CounterInc l m)
  = ((if decide (l.1.2 = ep) then 1 else 0) + counterTotal ep m)%nat.
Proof.
  unfold counterTotal, CounterInc; simpl.
  pose proof (mapTotal_insert
    (λ l n, if decide (l.1.2 = ep) then n else 0%nat)
    l (Datatypes.S (default 0%nat (requestCounter m !! l))) (requestCounter m)) as Hi.
  destruct (requestCounter m !! l); simpl in *; destruct (decide (l.1.2 = ep)); lia.
Qed.

Lemma observationTotal_HistogramObserve ep l v m :
  observationTotal ep (HistogramObserve l v m)
  = ((if decide (l.2 = ep) then 1 else 0) + observationTotal ep m)%nat.
Proof.
  unfold observationTotal, HistogramObserve; simpl.
  pose proof (mapTotal_insert
    (λ l obs, if decide (l.2 = ep) then length obs else 0%nat)
    l (default [] (requestDuration m !! l) ++ [v])%list (requestDuration m)) as Hi.
  destruct (requestDuration m !! l); simpl in *; destruct (decide (l.2 = ep));
    rewrite ?length_app in Hi; simpl in Hi; lia.
Qed.

(** The requests of a run that the mux hands to the handler of [ep]. *)
Definition handedTo `{!ServeMux} (ep : string) (r : http.Request) : bool :=
  match muxAnswer r with
  | Some _ => false
  | None => bool_decide (endpoint (route (http.Path r)) = ep)
  end.

Definition requestsTo `{!ServeMux} (ep : string) (rs : list http.Request) : nat :=
  countIf (handedTo ep) rs.

(** ** Accounting of a run *)

Section Accounting.

Context {S : Type} `{!RandSource S} `{!ServeMux}.

Implicit Types (cfg : Config) (w : World (S:=S)) (r : http.Request).

(** A request is either answered by the mux, which leaves the world as
    it was, or handed to the handler of the pattern its path matches. *)
Lemma ServeHTTP_answered cfg r w a :
  muxAnswer r = Some a → ServeHTTP cfg r w = (muxResponse r a, w).
Proof. intros Ha. unfold ServeHTTP. by rewrite Ha. Qed.

Lemma ServeHTTP_handed cfg r w :
  muxAnswer r = None → ServeHTTP cfg r w = handler cfg (route (http.Path r)) r w.
Proof. intros Ha. unfold ServeHTTP. by rewrite Ha. Qed.

(** An instrumented route records the status it sent and the time it
    took; the scrape route changes nothing. *)
Lemma handler_recorded cfg rt r w :
  rt ≠ MetricsRoute →
  let res := handler cfg rt r w in
  metrics res.2
  = recorded (endpoint rt) r (code res.1) (now w) (metrics w) (now res.2).
Proof.
  intros Hrt res. subst res.
  destruct rt; try done.
  - destruct (content_spec cfg RootRoute r w) as (-> & -> & ->); [by left | done].
  - destruct (handleHealth_spec cfg r w) as (Hres & Hnow & Hm).
    simpl in *. rewrite Hm, Hres, Hnow. by destruct (healthFails _ _).
  - destruct (content_spec cfg DataRoute r w) as (-> & -> & ->);
      [right; by left | done].
  - destruct (content_spec cfg ProcessRoute r w) as (-> & -> & ->);
      [right; by right | done].
Qed.

Lemma handler_scrape cfg r w :
  handler cfg MetricsRoute r w =
    ({| code := 200;
        contentType := Some "text/plain; version=0.0.4; charset=utf-8";
        body := Exposition (metrics w) |}, w).
Proof. reflexivity. Qed.

Lemma handler_gauge cfg rt r w :
  versionGauge (metrics (handler cfg rt r w).2) = versionGauge (metrics w).
Proof.
  destruct (decide (rt = MetricsRoute)) as [->|Hrt]; [done|].
  by rewrite handler_recorded.
Qed.

Lemma handler_counterTotal cfg rt r w ep :
  counterTotal ep (metrics (handler cfg rt r w).2)
  = ((if bool_decide (rt ≠ MetricsRoute ∧ endpoint rt = ep) then 1 else 0)
     + counterTotal ep (metrics w))%nat.
Proof.
  destruct (decide (rt = MetricsRoute)) as [->|Hrt].
  - rewrite bool_decide_eq_false_2 by tauto. done.
  - rewrite handler_recorded by done. unfold recorded.
    change (counterTotal ep (HistogramObserve ?l ?v ?m)) with (counterTotal ep m).
    rewrite counterTotal_CounterInc. simpl.
    destruct (decide (endpoint rt = ep)).
    + by rewrite bool_decide_eq_true_2.
    + by rewrite bool_decide_eq_false_2 by tauto.
Qed.

Lemma handler_observationTotal cfg rt r w ep :
  observationTotal ep (metrics (handler cfg rt r w).2)
  = ((if bool_decide (rt ≠ MetricsRoute ∧ endpoint rt = ep) then 1 else 0)
     + observationTotal ep (metrics w))%nat.
Proof.
  destruct (decide (rt = MetricsRoute)) as [->|Hrt].
  - rewrite bool_decide_eq_false_2 by tauto. done.
  - rewrite handler_recorded by done. unfold recorded.
    rewrite observationTotal_HistogramObserve. simpl.
    change (observationTotal ep (CounterInc ?l ?m)) with (observationTotal ep m).
    destruct (decide (endpoint rt = ep)).
    + by rewrite bool_decide_eq_true_2.
    + by rewrite bool_decide_eq_false_2 by tauto.
Qed.

Lemma endpoint_metrics rt : endpoint rt = "/metrics" ↔ rt = MetricsRoute.
Proof. by destruct rt. Qed.

Lemma ServeHTTP_gauge cfg r w :
  versionGauge (metrics (ServeHTTP cfg r w).2) = versionGauge (metrics w).
Proof.
  destruct (muxAnswer r) as [a|] eqn:Ha.
  - by rewrite (ServeHTTP_answered _ _ _ a).
  - rewrite ServeHTTP_handed by done. apply handler_gauge.
Qed.

Lemma ServeHTTP_totals cfg r w ep :
  counterTotal ep (metrics (ServeHTTP cfg r w).2)
    = ((if handedTo ep r && negb (bool_decide (ep = "/metrics")) then 1 else 0)
       + counterTotal ep (metrics w))%nat ∧
  observationTotal ep (metrics (ServeHTTP cfg r w).2)
    = ((if handedTo ep r && negb (bool_decide (ep = "/metrics")) then 1 else 0)
       + observationTotal ep (metrics w))%nat.
Proof.
  unfold handedTo.
  destruct (muxAnswer r) as [a|] eqn:Ha.
  - by rewrite (ServeHTTP_answered _ _ _ a).
  - rewrite ServeHTTP_handed by done.
    rewrite handler_counterTotal, handler_observationTotal.
    assert (bool_decide (route (http.Path r) ≠ MetricsRoute
                         ∧ endpoint (route (http.Path r)) = ep)
            = bool_decide (endpoint (route (http.Path r)) = ep)
              && negb (bool_decide (ep = "/metrics"))) as ->; [|done].
    destruct (decide (endpoint (route (http.Path r)) = ep)) as [E | E].
    + rewrite (bool_decide_eq_true_2 _ E). simpl.
      destruct (decide (ep = "/metrics")) as [Em | Em].
      * rewrite (bool_decide_eq_true_2 _ Em). simpl.
        apply bool_decide_eq_false_2. intros [Hne _]. apply Hne.
        apply endpoint_metrics. congruence.
      * rewrite (bool_decide_eq_false_2 _ Em). simpl.
        apply bool_decide_eq_true_2. split; [|done].
        intros Hm%endpoint_metrics. congruence.
    + rewrite (bool_decide_eq_false_2 _ E). simpl.
      apply bool_decide_eq_false_2. tauto.
Qed.

Lemma serveAll_gauge cfg rs w :
  versionGauge (metrics (serveAll cfg rs w).2) = versionGauge (metrics w).
Proof.
  revert w. induction rs as [|r rs IH]; intros w; [done|].
  simpl. unfold bind.
  pose proof (ServeHTTP_gauge cfg r w) as Hg.
  destruct (ServeHTTP cfg r w) as [resp w1].
  pose proof (IH w1) as IH1.
  destruct (serveAll cfg rs w1) as [resps w2]. simpl in *. congruence.
Qed.

Lemma serveAll_totals cfg rs w ep :
  ep ≠ "/metrics" →
  counterTotal ep (metrics (serveAll cfg rs w).2)
    = (requestsTo ep rs + counterTotal ep (metrics w))%nat ∧
  observationTotal ep (metrics (serveAll cfg rs w).2)
    = (requestsTo ep rs + observationTotal ep (metrics w))%nat.
Proof.
  intros Hep. revert w. induction rs as [|r rs IH]; intros w; [done|].
  simpl. unfold bind.
  destruct (ServeHTTP_totals cfg r w ep) as [Hc Ho].
  destruct (ServeHTTP cfg r w) as [resp w1].
  destruct (IH w1) as [IHc IHo].
  destruct (serveAll cfg rs w1) as [resps w2]. simpl in *.
  rewrite IHc, IHo, Hc, Ho.
  rewrite (bool_decide_eq_false_2 _ Hep), andb_true_r.
  change (requestsTo ep (r :: rs))
    with ((if handedTo ep r then 1 else 0) + requestsTo ep rs)%nat.
  lia.
Qed.

Lemma serveAll_scrapes_uncounted cfg rs w :
  counterTotal "/metrics" (metrics (serveAll cfg rs w).2)
    = counterTotal "/metrics" (metrics w) ∧
  observationTotal "/metrics" (metrics (serveAll cfg rs w).2)
    = observationTotal "/metrics" (metrics w).
Proof.
  revert w. induction rs as [|r rs IH]; intros w; [done|].
  simpl. unfold bind.
  destruct (ServeHTTP_totals cfg r w "/metrics") as [Hc Ho].
  destruct (ServeHTTP cfg r w) as [resp w1].
  destruct (IH w1) as [IHc IHo].
  destruct (serveAll cfg rs w1) as [resps w2]. simpl in *.
  rewrite IHc, IHo, Hc, Ho.
  by rewrite andb_false_r.
Qed.

End Accounting.

(** ** An unrecognized mode *)

Section Unrecognized.

Context {S : Type} `{!RandSource S}.

Implicit Types (cfg : Config) (w : World (S:=S)) (r : http.Request).



Lemma messages_unrecognized b : ¬ recognized b → messages !! b = None.
Proof.
  intros Hb. unfold messages, recognized in *.
  rewrite !lookup_insert_ne by (intros <-; tauto).
  apply lookup_empty.
Qed.

Lemma getMessage_unrecognized cfg w :
  ¬ recognized (behavior cfg) → getMessage cfg w = ("Unknown state", w).
Proof.
  intros Hb. unfold getMessage. by rewrite messages_unrecognized.
Qed.





End Unrecognized.


(** ** The server started by [main] *)

(** The [http.Server] literal of [main]. *)
Record Server := {
  Addr : string;
  ReadTimeout : time.Duration;
  WriteTimeout : time.Duration
}.

Definition server (cfg : Config) : Server :=
  {| Addr := ":" ++ port cfg;
     ReadTimeout := 5 * time.Second;
     WriteTimeout := 10 * time.Second |}.

(** ** What the content routes send *)

Section Responses.

Context {S : Type} `{!RandSource S}.

Implicit Types (cfg : Config) (w : World (S:=S)) (r : http.Request).

Lemma mode_cases (b : string) :
  b = "normal" ∨ b = "slow" ∨ b = "error-prone" ∨ b = "chaotic" ∨ ¬ recognized b.
Proof.
  unfold recognized.
  destruct (decide (b = "normal")); [tauto|].
  destruct (decide (b = "slow")); [tauto|].
  destruct (decide (b = "error-prone")); [tauto|].
  destruct (decide (b = "chaotic")); tauto.
Qed.

(** The engine pauses for a whole number of milliseconds, fewer than
    1500, and only in slow and chaotic mode. *)
Lemma applyBehavior_pause cfg w :
  ∃ q, now (applyBehavior cfg w).2 = now w + q * time.Millisecond ∧
       0 ≤ q < 1500 ∧
       (behavior cfg = "slow" → q < 1000) ∧
       (behavior cfg ≠ "slow" → behavior cfg ≠ "chaotic" → q = 0).
Proof.
  destruct (mode_cases (behavior cfg)) as [Hb | [Hb | [Hb | [Hb | Hb]]]].
  - rewrite applyBehavior_normal by done. exists 0.
    repeat split; intros; simpl; lia.
  - rewrite applyBehavior_slow by done. simpl.
    pose proof (Intn_range 800 (rng w) eq_refl) as Hk.
    exists (200 + (Intn 800 (rng w)).1).
    repeat split; intros; try lia; congruence.
  - rewrite applyBehavior_error_prone by done. exists 0.
    repeat split; intros; simpl; lia.
  - rewrite applyBehavior_chaotic by done. simpl.
    pose proof (Intn_range 1000 (Float32 (rng w)).2 eq_refl) as Hk.
    destruct (Qltb _ 0.3).
    + exists (500 + (Intn 1000 (Float32 (rng w)).2).1).
      repeat split; intros; try lia; congruence.
    + exists 0. repeat split; intros; try lia; congruence.
  - rewrite applyBehavior_unrecognized by done. exists 0.
    repeat split; intros; simpl; lia.
Qed.

(** A status other than 200 comes from error-prone or chaotic mode. *)
Lemma applyBehavior_500_mode cfg w :
  (applyBehavior cfg w).1 ≠ 200 →
  (applyBehavior cfg w).1 = 500 ∧
  (behavior cfg = "error-prone" ∨ behavior cfg = "chaotic").
Proof.
  intros Hne.
  destruct (applyBehavior_status cfg w) as [E | E]; [done|].
  split; [done|].
  destruct (mode_cases (behavior cfg)) as [Hb | [Hb | [Hb | [Hb | Hb]]]];
    try tauto; exfalso; apply Hne.
  - by rewrite applyBehavior_normal.
  - by rewrite applyBehavior_slow.
  - by rewrite applyBehavior_unrecognized.
Qed.

(** The payload of the data route. *)
Definition dataPayload cfg (items : Z) (t : time.Duration) : ResponseWriter :=
  jsonOK (JSONObject (<["items" := JNumber items]>
                     (<["processed" := JBool true]>
                     (<["version" := JString (version cfg)]>
                     (<["hostname" := JString (hostname cfg)]>
                     (<["timestamp" := JTime t]> ∅)))))).

(** The payload of the process route. *)
Definition processPayload cfg (ms : Z) : ResponseWriter :=
  jsonOK (JSONObject (<["status" := JString "completed"]>
                     (<["duration" := JNumber ms]>
                     (<["version" := JString (version cfg)]>
                     (<["hostname" := JString (hostname cfg)]> ∅))))).

Definition rootEnvelope cfg (t : time.Duration) (msg : string) : ResponseWriter :=
  jsonOK (Envelope {| Version := version cfg; Behavior := behavior cfg;
                      Hostname := hostname cfg; Timestamp := t; Message := msg |}).

Lemma handleRoot_response cfg r w :
  let a := applyBehavior cfg w in
  let res := handleRoot cfg r w in
  (a.1 ≠ 200 → res.1 = httpError (http.StatusText a.1) a.1 ∧ rng res.2 = rng a.2) ∧
  (a.1 = 200 →
     ∃ w1, rng w1 = rng a.2 ∧ now w1 = now a.2 ∧
           res.1 = rootEnvelope cfg (now a.2) (getMessage cfg w1).1 ∧
           rng res.2 = rng (getMessage cfg w1).2).
Proof.
  unfold handleRoot, bind, timeNow, updMetrics, observeSince.
  destruct (applyBehavior cfg w) as [st w1]; simpl.
  split.
  - intros Hne. by rewrite decide_True by done.
  - intros ->. rewrite decide_False by (intros E; by apply E).
    set (w2 := {| rng := rng w1; now := now w1; metrics := _ |}).
    exists w2. split; [done|]. split; [done|].
    unfold ret. destruct (getMessage cfg w2) as [msg w3]. done.
Qed.

Lemma handleAPIData_response cfg r w :
  let a := applyBehavior cfg w in
  let res := handleAPIData cfg r w in
  (a.1 ≠ 200 → res.1 = httpError (http.StatusText a.1) a.1 ∧ rng res.2 = rng a.2) ∧
  (a.1 = 200 →
     res.1 = dataPayload cfg (Intn 100 (rng a.2)).1 (now a.2) ∧
     rng res.2 = (Intn 100 (rng a.2)).2).
Proof.
  unfold handleAPIData, bind, timeNow, updMetrics, observeSince, randIntn.
  destruct (applyBehavior cfg w) as [st w1]; simpl.
  split.
  - intros Hne. by rewrite decide_True by done.
  - intros ->. rewrite decide_False by (intros E; by apply E). simpl.
    by destruct (Intn 100 (rng w1)) as [k s].
Qed.

Lemma handleProcess_response cfg r w :
  let a := applyBehavior cfg w in
  let res := handleProcess cfg r w in
  (a.1 ≠ 200 → res.1 = httpError (http.StatusText a.1) a.1 ∧ rng res.2 = rng a.2) ∧
  (a.1 = 200 →
     res.1 = processPayload cfg (time.Milliseconds (now res.2 - now w))).
Proof.
  unfold handleProcess, bind, timeNow, updMetrics, observeSince, randIntn, timeSleep.
  destruct (applyBehavior cfg w) as [st w1]; simpl.
  split.
  - intros Hne. by rewrite decide_True by done.
  - intros ->. rewrite decide_False by (intros E; by apply E). simpl.
    destruct (decide (behavior cfg = "slow")); simpl; [|done].
    by destruct (Intn 400 (rng w1)) as [k s].
Qed.

End Responses.

(** ** Messages *)

Lemma messages_recognized (b : string) :
  recognized b →
  ∃ m1 m2 m3, messages !! b = Some [m1; m2; m3] ∧ m1 ≠ "" ∧ m2 ≠ "" ∧ m3 ≠ "".
Proof.
  intros [-> | [-> | [-> | ->]]]; do 3 eexists;
    (split; [reflexivity | repeat split; discriminate]).
Qed.

Lemma getMessage_recognized {S : Type} `{!RandSource S}
    (cfg : Config) (w : World (S:=S)) (m1 m2 m3 : string) :
  messages !! behavior cfg = Some [m1; m2; m3] →
  let i := (Intn 3 (rng w)).1 in
  getMessage cfg w =
    (default "" ([m1; m2; m3] !! Z.to_nat i),
     {| rng := (Intn 3 (rng w)).2; now := now w; metrics := metrics w |}) ∧
  (i = 0 ∨ i = 1 ∨ i = 2).
Proof.
  intros Hm i. unfold getMessage. rewrite Hm. simpl.
  unfold bind, randIntn, ret.
  change (Z.of_nat 3) with 3.
  pose proof (Intn_range 3 (rng w) eq_refl) as Hi. fold i in Hi.
  subst i. destruct (Intn 3 (rng w)) as [i s]; simpl in *.
  split; [done | lia].
Qed.

(** What [getMessage] yields, in one statement: a non-empty message,
    taken from the table when the mode has an entry. *)
Lemma getMessage_facts {S : Type} `{!RandSource S}
    (cfg : Config) (w : World (S:=S)) :
  let res := getMessage cfg w in
  res.1 ≠ "" ∧ now res.2 = now w ∧ metrics res.2 = metrics w ∧
  (recognized (behavior cfg) →
     res.1 ∈ default [] (messages !! behavior cfg) ∧
     rng res.2 = (Intn 3 (rng w)).2) ∧
  (¬ recognized (behavior cfg) → res = ("Unknown state", w)).
Proof.
  intros res. subst res.
  destruct (decide (recognized (behavior cfg))) as [Hr | Hu].
  - destruct (messages_recognized _ Hr) as (m1 & m2 & m3 & Hm & H1 & H2 & H3).
    destruct (getMessage_recognized cfg w m1 m2 m3 Hm) as [-> Hi].
    rewrite Hm. simpl.
    assert (default "" ([m1; m2; m3] !! Z.to_nat (Intn 3 (rng w)).1) ∈ [m1; m2; m3]
            ∧ default "" ([m1; m2; m3] !! Z.to_nat (Intn 3 (rng w)).1) ≠ "") as [Hin Hne].
    { destruct Hi as [-> | [-> | ->]]; simpl; rewrite !elem_of_cons; tauto. }
    repeat split; try done.
  - rewrite getMessage_unrecognized by done. simpl.
    repeat split; try done.
Qed.

(** ** Shape of the request counter *)

(** The label tuples the handlers can write: health with 200 or 503,
    a content endpoint with 200 or 500. *)
Definition labelShape (l : string * string * string) : Prop :=
  (l.1.2 = "/health" ∧ (l.2 = "200" ∨ l.2 = "503")) ∨
  ((l.1.2 = "/" ∨ l.1.2 = "/api/data" ∨ l.1.2 = "/api/process") ∧
   (l.2 = "200" ∨ l.2 = "500")).

Definition counterShape (m : Metrics) : Prop :=
  ∀ l n, requestCounter m !! l = Some n → labelShape l ∧ (1 ≤ n)%nat.

(** The samples of [m] are kept by [m']: counter samples do not
    decrease and observations are only appended. *)
Definition metricsGrow (m m' : Metrics) : Prop :=
  (∀ l n, requestCounter m !! l = Some n →
          ∃ n', requestCounter m' !! l = Some n' ∧ (n ≤ n')%nat) ∧
  (∀ k obs, requestDuration m !! k = Some obs →
            ∃ more, requestDuration m' !! k = Some (obs ++ more)%list) ∧
  versionGauge m' = versionGauge m.

(** The counter samples and the observations under one
    (method, endpoint) pair. *)
Definition counterFor (k : string * string) (m : Metrics) : nat :=
  mapTotal (λ l n, if decide (l.1 = k) then n else 0%nat) (requestCounter m).

Definition observationsFor (k : string * string) (m : Metrics) : nat :=
  length (default [] (requestDuration m !! k)).

Lemma counterFor_CounterInc k l m :
  counterFor k (CounterInc l m)
  = ((if decide (l.1 = k) then 1 else 0) + counterFor k m)%nat.
Proof.
  unfold counterFor, CounterInc; simpl.
  pose proof (mapTotal_insert
    (λ l n, if decide (l.1 = k) then n else 0%nat)
    l (Datatypes.S (default 0%nat (requestCounter m !! l))) (requestCounter m)) as Hi.
  destruct (requestCounter m !! l); simpl in *; destruct (decide (l.1 = k)); lia.
Qed.

Lemma observationsFor_HistogramObserve k k' v m :
  observationsFor k (HistogramObserve k' v m)
  = ((if decide (k' = k) then 1 else 0) + observationsFor k m)%nat.
Proof.
  unfold observationsFor, HistogramObserve; simpl.
  rewrite lookup_insert. destruct (decide (k' = k)) as [->|]; simpl; [|done].
  rewrite length_app. simpl. lia.
Qed.

Lemma metricsGrow_refl m : metricsGrow m m.
Proof.
  split; [|split]; [intros l n Hl; eauto | intros k obs Hk | done].
  exists []. by rewrite app_nil_r.
Qed.

Lemma metricsGrow_trans m1 m2 m3 :
  metricsGrow m1 m2 → metricsGrow m2 m3 → metricsGrow m1 m3.
Proof.
  intros (Hc1 & Ho1 & Hg1) (Hc2 & Ho2 & Hg2). split; [|split].
  - intros l n Hl. destruct (Hc1 l n Hl) as (n' & Hl' & Hle).
    destruct (Hc2 l n' Hl') as (n'' & Hl'' & Hle'). exists n''. split; [done | lia].
  - intros k obs Hk. destruct (Ho1 k obs Hk) as (more & Hk').
    destruct (Ho2 k _ Hk') as (more' & Hk''). exists (more ++ more')%list.
    by rewrite app_assoc.
  - congruence.
Qed.

Lemma metricsGrow_recorded ep r status start m t :
  metricsGrow m (recorded ep r status start m t).
Proof.
  unfold recorded, HistogramObserve, CounterInc; simpl.
  split; [|split]; simpl; [| |done].
  - intros l n Hl. rewrite lookup_insert. case_decide as E.
    + subst l. rewrite Hl. simpl. exists (Datatypes.S n). split; [done | lia].
    + eauto.
  - intros k obs Hk. rewrite lookup_insert. case_decide as E.
    + subst k. rewrite Hk. simpl. eauto.
    + exists []. by rewrite app_nil_r.
Qed.

Section Invariants.

Context {S : Type} `{!RandSource S} `{!ServeMux}.

Implicit Types (cfg : Config) (w : World (S:=S)) (r : http.Request).

(** The status label an instrumented handler writes. *)
Lemma handler_label cfg rt r w :
  rt ≠ MetricsRoute →
  labelShape (http.Method r, endpoint rt, Sprintf_d (code (handler cfg rt r w).1)).
Proof.
  intros Hrt. unfold labelShape. simpl.
  destruct (decide (rt = HealthRoute)) as [-> | Hh].
  - left. split; [done|].
    destruct (handleHealth_spec cfg r w) as (Hres & _).
    simpl in *. rewrite Hres. destruct (healthFails _ _); [by right | by left].
  - right.
    assert (contentRoute rt) as Hc by (destruct rt; unfold contentRoute; tauto).
    split; [destruct rt; tauto|].
    destruct (content_spec cfg rt r w Hc) as (-> & _).
    destruct (applyBehavior_status cfg w) as [-> | ->]; [by left | by right].
Qed.

Lemma handler_counterShape cfg rt r w :
  counterShape (metrics w) → counterShape (metrics (handler cfg rt r w).2).
Proof.
  intros Hw.
  destruct (decide (rt = MetricsRoute)) as [-> | Hrt]; [done|].
  rewrite handler_recorded by done.
  unfold recorded, counterShape; simpl.
  intros l n. rewrite lookup_insert. case_decide as E.
  - intros [= <-]. subst l. split; [by apply handler_label | lia].
  - apply Hw.
Qed.

Lemma handler_metricsGrow cfg rt r w :
  metricsGrow (metrics w) (metrics (handler cfg rt r w).2).
Proof.
  destruct (decide (rt = MetricsRoute)) as [-> | Hrt]; [apply metricsGrow_refl|].
  rewrite handler_recorded by done. apply metricsGrow_recorded.
Qed.

Lemma handler_counterFor cfg rt r w k :
  counterFor k (metrics w) = observationsFor k (metrics w) →
  counterFor k (metrics (handler cfg rt r w).2)
  = observationsFor k (metrics (handler cfg rt r w).2).
Proof.
  intros Hw.
  destruct (decide (rt = MetricsRoute)) as [-> | Hrt]; [done|].
  rewrite handler_recorded by done. unfold recorded.
  rewrite observationsFor_HistogramObserve.
  change (counterFor k (HistogramObserve ?l ?v ?m)) with (counterFor k m).
  rewrite counterFor_CounterInc. simpl.
  change (observationsFor k (CounterInc ?l ?m)) with (observationsFor k m).
  by rewrite Hw.
Qed.

(** A property of the registry kept by every handler is kept by a run. *)
Lemma serveAll_invariant (P : Metrics → Prop) cfg :
  (∀ rt r w, P (metrics w) → P (metrics (handler cfg rt r w).2)) →
  ∀ rs w, P (metrics w) → P (metrics (serveAll cfg rs w).2).
Proof.
  intros Hstep rs. induction rs as [|r rs IH]; intros w Hw; [done|].
  simpl. unfold bind.
  assert (P (metrics (ServeHTTP cfg r w).2)) as H1.
  { destruct (muxAnswer r) as [a|] eqn:Ha.
    - by rewrite (ServeHTTP_answered _ _ _ a).
    - rewrite ServeHTTP_handed by done. by apply Hstep. }
  destruct (ServeHTTP cfg r w) as [resp w1]; simpl in *.
  pose proof (IH w1 H1) as H2.
  by destruct (serveAll cfg rs w1) as [resps w2].
Qed.

(** Only the root route sends an envelope, and the envelope carries the
    identity of the configuration. *)
Lemma handler_envelope cfg rt r w e :
  body (handler cfg rt r w).1 = Envelope e →
  rt = RootRoute ∧ code (handler cfg rt r w).1 = 200 ∧
  Version e = version cfg ∧ Behavior e = behavior cfg ∧ Hostname e = hostname cfg ∧
  Timestamp e = now (handler cfg rt r w).2.
Proof.
  destruct rt; simpl.
  - destruct (handleRoot_response cfg r w) as [Herr Hok].
    destruct (handleRoot_spec cfg r w) as (Hc & Hn & _).
    destruct (decide ((applyBehavior cfg w).1 = 200)) as [E | E].
    + destruct (Hok E) as (w1 & _ & _ & -> & _). simpl.
      intros [= <-]. simpl. by rewrite Hn.
    + destruct (Herr E) as [-> _]. discriminate.
  - destruct (handleHealth_spec cfg r w) as (-> & _).
    by destruct (healthFails _ _).
  - destruct (handleAPIData_response cfg r w) as [Herr Hok].
    destruct (decide ((applyBehavior cfg w).1 = 200)) as [E | E].
    + destruct (Hok E) as [-> _]. discriminate.
    + destruct (Herr E) as [-> _]. discriminate.
  - destruct (handleProcess_response cfg r w) as [Herr Hok].
    destruct (decide ((applyBehavior cfg w).1 = 200)) as [E | E].
    + rewrite (Hok E). discriminate.
    + destruct (Herr E) as [-> _]. discriminate.
  - discriminate.
Qed.

Lemma serveAll_envelope cfg rs w resp e :
  resp ∈ (serveAll cfg rs w).1 → body resp = Envelope e →
  Version e = version cfg ∧ Behavior e = behavior cfg ∧ Hostname e = hostname cfg.
Proof.
  revert w. induction rs as [|r rs IH]; intros w; simpl.
  - by intros ?%elem_of_nil.
  - unfold bind.
    assert (body (ServeHTTP cfg r w).1 = Envelope e →
            Version e = version cfg ∧ Behavior e = behavior cfg ∧
            Hostname e = hostname cfg) as Hh.
    { destruct (muxAnswer r) as [a|] eqn:Ha.
      - rewrite (ServeHTTP_answered _ _ _ a) by done. by destruct a.
      - rewrite ServeHTTP_handed by done. intros Hb.
        by destruct (handler_envelope cfg _ r w e Hb) as (_ & _ & ? & ? & ? & _). }
    destruct (ServeHTTP cfg r w) as [resp1 w1]; simpl in *.
    pose proof (IH w1) as IH1.
    destruct (serveAll cfg rs w1) as [resps w2]; simpl in *.
    intros [-> | Hin]%elem_of_cons Hb; [by apply Hh | by apply IH1].
Qed.

End Invariants.

(** ** The health service (bmi-calculator/health-service/main.go)

    The outcome of [client.Get] is an input: [None] when the call
    returns an error (including the 2s timeout), otherwise the status
    code of the response.  Values of the Go runtime and the clock are
    inputs as well. *)

Module HealthService.

Module ServiceCheck.
Record t := { Name : string; Status : string; URL : string; Error : string }.
End ServiceCheck.

Module SystemInfo.
Record t := { NumGoroutines : Z; NumCPU : Z }.
End SystemInfo.

Module HealthStatus.
Record t := {
  Status : string;
  Service : string;
  Timestamp : time.Duration;     (* [time.Now()], before formatting *)
  Version : string;
  Uptime : time.Duration;        (* [time.Since(startTime)], before formatting *)
  GoVersion : string;
  Environment : gmap string string;
  System : SystemInfo.t
}.
End HealthStatus.

(** What the handlers read from the Go runtime and the clock. *)
Record Runtime := {
  timeNow : time.Duration;
  startTime : time.Duration;
  runtimeVersion : string;
  runtimeNumGoroutine : Z;
  runtimeNumCPU : Z
}.

Definition getEnv (environ : gmap string string) (key defaultValue : string) : string :=
  let value := os.Getenv environ key in
  if decide (value ≠ "") then value else defaultValue.

Definition checkServiceHealth (clientGet : string → option Z) (url : string) : string :=
  match clientGet url with
  | None => "unhealthy"
  | Some statusCode =>
      if decide (statusCode = http.StatusOK) then "healthy" else "unhealthy"
  end.

Fixpoint getOverallStatus (services : list ServiceCheck.t) : string :=
  match services with
  | [] => "healthy"
  | service :: rest =>
      if decide (ServiceCheck.Status service = "unhealthy") then "degraded"
      else getOverallStatus rest
  end.

Definition relevantVars : list string :=
  ["PORT"; "ENVIRONMENT"; "NAMESPACE"; "POD_NAME"; "POD_IP"; "IMAGE_VERSION"].

(** The body of the loop of [getEnvironmentVars]. *)
Definition collectVar (environ env : gmap string string) (key : string)
    : gmap string string :=
  let value := os.Getenv environ key in
  if decide (value ≠ "") then <[key := value]> env else env.

Definition getEnvironmentVars (environ : gmap string string) : gmap string string :=
  foldl (collectVar environ) ∅ relevantVars.

Definition healthHandler (environ : gmap string string) (rt : Runtime) : HealthStatus.t :=
  {| HealthStatus.Status := "healthy";
     HealthStatus.Service := "health-service";
     HealthStatus.Timestamp := timeNow rt;
     HealthStatus.Version := getEnv environ "IMAGE_VERSION" "unknown";
     HealthStatus.Uptime := timeNow rt - startTime rt;
     HealthStatus.GoVersion := runtimeVersion rt;
     HealthStatus.Environment := getEnvironmentVars environ;
     HealthStatus.System :=
       {| SystemInfo.NumGoroutines := runtimeNumGoroutine rt;
          SystemInfo.NumCPU := runtimeNumCPU rt |} |}.

(** The map sent by [servicesHealthHandler]. *)
Record ServicesResponse := {
  timestamp : time.Duration;
  services : list ServiceCheck.t;
  overall : string
}.

Definition servicesHealthHandler (clientGet : string → option Z) (rt : Runtime)
    : ServicesResponse :=
  let services :=
    [ {| ServiceCheck.Name := "gateway";
         ServiceCheck.Status := checkServiceHealth clientGet "http://gateway:8080/health";
         ServiceCheck.URL := "http://gateway:8080/health";
         ServiceCheck.Error := "" |};
      {| ServiceCheck.Name := "bmi-service";
         ServiceCheck.Status := checkServiceHealth clientGet "http://bmi-service:8081/health";
         ServiceCheck.URL := "http://bmi-service:8081/health";
         ServiceCheck.Error := "" |} ] in
  {| timestamp := timeNow rt;
     services := services;
     overall := getOverallStatus services |}.

Lemma checkServiceHealth_healthy clientGet url :
  checkServiceHealth clientGet url = "healthy" ↔ clientGet url = Some 200.
Proof.
  unfold checkServiceHealth. destruct (clientGet url) as [c|]; [|done].
  case_decide as E; [by rewrite E|].
  split; [discriminate|]. intros [= ->]. by destruct E.
Qed.

Lemma checkServiceHealth_values clientGet url :
  checkServiceHealth clientGet url = "healthy" ∨
  checkServiceHealth clientGet url = "unhealthy".
Proof.
  unfold checkServiceHealth. destruct (clientGet url); [case_decide|]; auto.
Qed.

Lemma getOverallStatus_degraded services :
  getOverallStatus services = "degraded" ↔
  ∃ s, s ∈ services ∧ ServiceCheck.Status s = "unhealthy".
Proof.
  induction services as [|s rest IH]; simpl.
  - split; [discriminate|]. by intros (s & ?%elem_of_nil & _).
  - case_decide as E.
    + split; [|done]. intros _. exists s. split; [apply list_elem_of_here | done].
    + rewrite IH. split.
      * intros (s' & Hin & Hs'). exists s'. split; [by apply list_elem_of_further | done].
      * intros (s' & [-> | Hin]%elem_of_cons & Hs'); [done|]. eauto.
Qed.

Lemma getOverallStatus_values services :
  getOverallStatus services = "healthy" ∨ getOverallStatus services = "degraded".
Proof. induction services; simpl; [|case_decide]; auto. Qed.

(** The loop of [getEnvironmentVars], from any map built so far. *)
Lemma collect_lookup environ vars env key :
  foldl (collectVar environ) env vars !! key =
    if decide (key ∈ vars ∧ os.Getenv environ key ≠ "")
    then Some (os.Getenv environ key)
    else env !! key.
Proof.
  revert env. induction vars as [|v vars IH]; intros env; cbn [foldl].
  - rewrite decide_False; [done|]. intros [?%elem_of_nil _]. done.
  - rewrite IH. clear IH.
    destruct (decide (key ∈ vars ∧ os.Getenv environ key ≠ "")) as [[Hin Hne] | Hno].
    { rewrite decide_True; [done|]. split; [by apply list_elem_of_further | done]. }
    destruct (decide (key ∈ v :: vars ∧ os.Getenv environ key ≠ ""))
      as [[Hin Hne] | Hno'].
    + apply elem_of_cons in Hin as [-> | Hin]; [|tauto].
      unfold collectVar. cbv zeta. rewrite decide_True by done.
      apply lookup_insert_eq.
    + unfold collectVar. cbv zeta.
      destruct (decide (os.Getenv environ v ≠ "")) as [Hv|]; [|done].
      rewrite lookup_insert_ne; [done|].
      intros <-. apply Hno'. split; [apply list_elem_of_here | done].
Qed.

Lemma getEnvironmentVars_lookup environ key :
  getEnvironmentVars environ !! key =
    if decide (key ∈ relevantVars ∧ os.Getenv environ key ≠ "")
    then Some (os.Getenv environ key)
    else None.
Proof. unfold getEnvironmentVars. by rewrite collect_lookup, lookup_empty. Qed.

Lemma getEnvironmentVars_Some environ key v :
  getEnvironmentVars environ !! key = Some v ↔
  key ∈ relevantVars ∧ environ !! key = Some v ∧ v ≠ "".
Proof.
  rewrite getEnvironmentVars_lookup. unfold os.Getenv.
  case_decide as E.
  - destruct E as [Hin Hne]. destruct (environ !! key) as [v'|]; simpl in *; [|done].
    split; [by intros [= ->] | by intros (_ & [= ->] & _)].
  - split; [done|]. intros (Hin & Hk & Hv). destruct E. rewrite Hk. done.
Qed.

End HealthService.

(** ** Independence from the registry *)

Section Independence.

Context {S : Type} `{!RandSource S}.

Implicit Types (cfg : Config) (w : World (S:=S)) (r : http.Request).

(** Two worlds with the same generator state and clock. *)
Definition sameDraws w w' : Prop := rng w = rng w' ∧ now w = now w'.

Lemma applyBehavior_sameDraws cfg w w' :
  sameDraws w w' →
  (applyBehavior cfg w).1 = (applyBehavior cfg w').1 ∧
  sameDraws (applyBehavior cfg w).2 (applyBehavior cfg w').2.
Proof.
  intros [Hr Hn]. unfold sameDraws.
  destruct (mode_cases (behavior cfg)) as [Hb | [Hb | [Hb | [Hb | Hb]]]].
  - by rewrite !applyBehavior_normal.
  - rewrite !applyBehavior_slow by done. simpl. by rewrite Hr, Hn.
  - rewrite !applyBehavior_error_prone by done. simpl. by rewrite Hr, Hn.
  - rewrite !applyBehavior_chaotic by done. simpl. by rewrite Hr, Hn.
  - by rewrite !applyBehavior_unrecognized.
Qed.

Lemma getMessage_sameDraws cfg w w' :
  rng w = rng w' →
  (getMessage cfg w).1 = (getMessage cfg w').1 ∧
  rng (getMessage cfg w).2 = rng (getMessage cfg w').2.
Proof.
  intros Hr. unfold getMessage. case_decide; [done|].
  unfold bind, randIntn, ret. rewrite Hr.
  by destruct (Intn _ (rng w')).
Qed.

Lemma handleRoot_sameDraws cfg r w w' :
  sameDraws w w' →
  (handleRoot cfg r w).1 = (handleRoot cfg r w').1 ∧
  sameDraws (handleRoot cfg r w).2 (handleRoot cfg r w').2.
Proof.
  intros Hw. destruct (applyBehavior_sameDraws cfg w w' Hw) as (Hst & Har & Han).
  destruct (handleRoot_spec cfg r w) as (_ & Hn & _).
  destruct (handleRoot_spec cfg r w') as (_ & Hn' & _).
  destruct (handleRoot_response cfg r w) as [He Hok].
  destruct (handleRoot_response cfg r w') as [He' Hok'].
  simpl in *. unfold sameDraws. rewrite Hn, Hn'.
  destruct (decide ((applyBehavior cfg w).1 = 200)) as [E | E].
  - destruct (Hok E) as (w1 & Hr1 & _ & -> & ->).
    destruct (Hok' (eq_trans (eq_sym Hst) E)) as (w1' & Hr1' & _ & -> & ->).
    destruct (getMessage_sameDraws cfg w1 w1') as [-> ->]; [congruence|].
    by rewrite Han.
  - destruct (He E) as [-> ->].
    destruct (He' (λ E', E (eq_trans Hst E'))) as [-> ->].
    by rewrite Hst, Har.
Qed.

Lemma handleAPIData_sameDraws cfg r w w' :
  sameDraws w w' →
  (handleAPIData cfg r w).1 = (handleAPIData cfg r w').1 ∧
  sameDraws (handleAPIData cfg r w).2 (handleAPIData cfg r w').2.
Proof.
  intros Hw. destruct (applyBehavior_sameDraws cfg w w' Hw) as (Hst & Har & Han).
  destruct (handleAPIData_spec cfg r w) as (_ & Hn & _).
  destruct (handleAPIData_spec cfg r w') as (_ & Hn' & _).
  destruct (handleAPIData_response cfg r w) as [He Hok].
  destruct (handleAPIData_response cfg r w') as [He' Hok'].
  simpl in *. unfold sameDraws. rewrite Hn, Hn'.
  destruct (decide ((applyBehavior cfg w).1 = 200)) as [E | E].
  - destruct (Hok E) as [-> ->].
    destruct (Hok' (eq_trans (eq_sym Hst) E)) as [-> ->].
    by rewrite Har, Han.
  - destruct (He E) as [-> ->].
    destruct (He' (λ E', E (eq_trans Hst E'))) as [-> ->].
    by rewrite Hst, Har.
Qed.

Lemma handleProcess_sameDraws cfg r w w' :
  sameDraws w w' →
  (handleProcess cfg r w).1 = (handleProcess cfg r w').1 ∧
  sameDraws (handleProcess cfg r w).2 (handleProcess cfg r w').2.
Proof.
  intros Hw. destruct (applyBehavior_sameDraws cfg w w' Hw) as (Hst & Har & Han).
  destruct Hw as [Hr Hnw].
  unfold handleProcess, bind, timeNow, updMetrics, observeSince, randIntn,
    timeSleep, ret, sameDraws in *.
  destruct (applyBehavior cfg w) as [st w1], (applyBehavior cfg w') as [st' w1'].
  simpl in *. subst st'.
  case_decide; simpl; [done|].
  case_decide; simpl.
  - rewrite Har. destruct (Intn 400 (rng w1')) as [k s]. simpl.
    by rewrite Han, Hnw.
  - by rewrite Han, Hnw.
Qed.

Lemma handleHealth_sameDraws cfg r w w' :
  sameDraws w w' →
  (handleHealth cfg r w).1 = (handleHealth cfg r w').1 ∧
  sameDraws (handleHealth cfg r w).2 (handleHealth cfg r w').2.
Proof.
  intros [Hr Hn].
  unfold handleHealth, bind, timeNow, updMetrics, observeSince, randFloat32,
    ret, sameDraws.
  case_decide; simpl.
  - rewrite Hr. destruct (Float32 (rng w')) as [f s]. simpl.
    by destruct (Qltb f 0.3).
  - done.
Qed.

(** What an instrumented handler sends, and the generator and clock it
    leaves, do not depend on the contents of the registry. *)
Lemma handler_sameDraws cfg rt r w w' :
  rt ≠ MetricsRoute →
  sameDraws w w' →
  (handler cfg rt r w).1 = (handler cfg rt r w').1 ∧
  sameDraws (handler cfg rt r w).2 (handler cfg rt r w').2.
Proof.
  intros Hrt Hw. destruct rt; try done; simpl.
  - by apply handleRoot_sameDraws.
  - by apply handleHealth_sameDraws.
  - by apply handleAPIData_sameDraws.
  - by apply handleProcess_sameDraws.
Qed.

(** The health route draws only in error-prone mode. *)
Lemma handleHealth_draws cfg r w :
  rng (handleHealth cfg r w).2
  = if decide (behavior cfg = "error-prone") then (Float32 (rng w)).2 else rng w.
Proof.
  unfold handleHealth, bind, timeNow, updMetrics, observeSince, randFloat32, ret.
  case_decide; simpl; [|done].
  destruct (Float32 (rng w)) as [f s]. simpl. by destruct (Qltb f 0.3).
Qed.

End Independence.

(** ** An unrecognized mode beside normal mode *)

Section Beside.

Context {S : Type} `{!RandSource S} `{!ServeMux}.

Implicit Types (cfg : Config) (w wN : World (S:=S)) (r : http.Request).









End Beside.

(** * Properties *)

(** C1. In error-prone mode the engine answers 500 exactly when its
    draw is below 0.5 and 200 otherwise, and injects no delay; every
    content route sends that status, also without delay.  With the draw
    uniform on a grid of even resolution the 500 has probability
    exactly 0.5. *)
Theorem error_prone_half {S : Type} `{!RandSource S}
    (cfg : Config) (rt : Route) (r : http.Request) (w : World (S:=S))
    (m : positive) (fs : list Q) (ks : list Z) (t : time.Duration) (mx : Metrics) :
  behavior cfg = "error-prone" →
  contentRoute rt →
  let d := (Float32 (rng w)).1 in
  let status := (applyBehavior cfg w).1 in
  (status = 500 ↔ (d < 0.5)%Q) ∧
  (status = 200 ↔ ¬ (d < 0.5)%Q) ∧
  injectedDelay (applyBehavior cfg) w = 0 ∧
  code (handler cfg rt r w).1 = status ∧
  injectedDelay (handler cfg rt r) w = 0 ∧
  (frequency (λ u, Z.eqb (applyBehavior cfg (replay (u :: fs) ks t mx)).1 500)
     (uniformGrid (2 * m)) == 0.5)%Q.
Proof.
  intros Hb Hrt d status.
  destruct (content_spec cfg rt r w Hrt) as (Hc & Hn & _).
  assert (injectedDelay (applyBehavior cfg) w = 0) as Hd0.
  { unfold injectedDelay. rewrite applyBehavior_error_prone by done. simpl. lia. }
  subst d status.
  rewrite applyBehavior_error_prone by done. simpl.
  split; [by rewrite status_500_iff, Qltb_lt|].
  split; [by rewrite status_200_iff, Qltb_not_lt|].
  split; [done|].
  split; [by rewrite Hc, applyBehavior_error_prone|].
  split.
  - unfold injectedDelay in *. rewrite Hn.
    unfold processPause.
    rewrite (decide_False (P := behavior cfg = "slow")) by (rewrite Hb; discriminate).
    destruct rt; try lia; destruct (decide _); lia.
  - unfold frequency.
    rewrite (countIf_ext_in _ (λ u, Qltb u 0.5)).
    + rewrite (uniformGrid_below (2 * m) (Pos.to_nat m)).
      * rewrite uniformGrid_length, Pos2Nat.id, positive_nat_Z.
        unfold Qeq; simpl. lia.
      * rewrite positive_nat_Z. unfold Qeq; simpl. lia.
      * lia.
    + intros u [Hu0 Hu1]%uniformGrid_unit.
      rewrite applyBehavior_error_prone by done.
      rewrite replay_Float32 by done. simpl.
      apply Z_eqb_status.
Qed.

Lemma error_prone_half_witness :
  let cfg := demoConfig "error-prone" in
  let w := replay [0.25%Q] [] 0 emptyMetrics in
  behavior cfg = "error-prone" ∧
  contentRoute DataRoute ∧
  ((applyBehavior cfg w).1 = 500 ↔ ((Float32 (rng w)).1 < 0.5)%Q) ∧
  ((applyBehavior cfg w).1 = 200 ↔ ¬ ((Float32 (rng w)).1 < 0.5)%Q) ∧
  injectedDelay (applyBehavior cfg) w = 0 ∧
  code (handler cfg DataRoute (GET "/api/data") w).1 = (applyBehavior cfg w).1 ∧
  injectedDelay (handler cfg DataRoute (GET "/api/data")) w = 0 ∧
  (frequency (λ u, Z.eqb (applyBehavior cfg (replay [u] [] 0%Z emptyMetrics)).1 500)
     (uniformGrid (2 * 4)) == 0.5)%Q.
Proof.
  intros cfg w.
  split; [reflexivity|].
  split; [right; left; reflexivity|].
  apply (error_prone_half cfg DataRoute (GET "/api/data") w 4 [] [] 0 emptyMetrics).
  - reflexivity.
  - right; left; reflexivity.
Defined.

(** C2. In chaotic mode the engine draws twice.  The first draw alone
    decides the delay: a pause in [500ms, 1500ms) when it is below 0.3,
    none otherwise.  The second draw alone decides the status: 500 when
    it is below 0.4, else 200.  Content routes send that status after
    that delay.  With both draws uniform on a grid of resolution
    [10 * m], a request is delayed with probability 0.3, fails with
    probability 0.4, and is both delayed and failed with probability
    0.12, the product of the two. *)
Theorem chaotic_independent_draws {S : Type} `{!RandSource S}
    (cfg : Config) (rt : Route) (r : http.Request) (w : World (S:=S))
    (m : positive) (fs : list Q) (ks : list Z) (t : time.Duration) (mx : Metrics) :
  behavior cfg = "chaotic" →
  contentRoute rt →
  let d1 := (Float32 (rng w)).1 in
  let d2 := (Float32 (chaoticSecond (rng w))).1 in
  let status := (applyBehavior cfg w).1 in
  let delay := injectedDelay (applyBehavior cfg) w in
  let G := uniformGrid (10 * m) in
  ((d1 < 0.3)%Q → 500 * time.Millisecond ≤ delay < 1500 * time.Millisecond) ∧
  (¬ (d1 < 0.3)%Q → delay = 0) ∧
  (status = 500 ↔ (d2 < 0.4)%Q) ∧
  (status = 200 ↔ ¬ (d2 < 0.4)%Q) ∧
  code (handler cfg rt r w).1 = status ∧
  injectedDelay (handler cfg rt r) w = delay ∧
  (frequency (chaoticDelayed cfg fs ks t mx) (list_prod G G) == 0.3)%Q ∧
  (frequency (chaoticFailed cfg fs ks t mx) (list_prod G G) == 0.4)%Q ∧
  (frequency (λ u, chaoticDelayed cfg fs ks t mx u && chaoticFailed cfg fs ks t mx u)
     (list_prod G G) == 0.12)%Q.
Proof.
  intros Hb Hrt d1 d2 status delay G.
  destruct (content_spec cfg rt r w Hrt) as (Hc & Hn & _).
  pose proof (applyBehavior_chaotic cfg w Hb) as Ha.
  pose proof (Intn_range 1000 (Float32 (rng w)).2 eq_refl) as Hk.
  assert (delay = if Qltb d1 0.3
                  then (500 + (Intn 1000 (Float32 (rng w)).2).1) * time.Millisecond
                  else 0) as Hdelay.
  { subst delay d1. unfold injectedDelay. rewrite Ha. simpl.
    destruct (Qltb _ 0.3); lia. }
  assert (status = if Qltb d2 0.4 then 500 else 200) as Hstatus.
  { subst status d2. by rewrite Ha. }
  split.
  { intros Hlt%Qltb_lt. rewrite Hdelay, Hlt. unfold time.Millisecond. lia. }
  split.
  { intros Hge%Qltb_not_lt. rewrite Hdelay.
    by destruct (Qltb d1 0.3). }
  split; [by rewrite Hstatus, status_500_iff, Qltb_lt|].
  split; [by rewrite Hstatus, status_200_iff, Qltb_not_lt|].
  split; [done|].
  split.
  { subst delay. unfold injectedDelay in *. rewrite Hn.
    unfold processPause.
    rewrite (decide_False (P := behavior cfg = "slow")) by (rewrite Hb; discriminate).
    destruct rt; try lia; destruct (decide _); lia. }
  by apply chaotic_frequencies.
Qed.

Lemma chaotic_independent_draws_witness :
  let cfg := demoConfig "chaotic" in
  let ks := [250] in
  let t := 0 in
  let w := replay [0.1%Q; 0.2%Q] ks t emptyMetrics in
  let G := uniformGrid (10 * 1) in
  (behavior cfg = "chaotic" ∧ contentRoute RootRoute) ∧
  (((Float32 (rng w)).1 < 0.3)%Q ∧
   applyBehavior cfg w = (500, replay [] [] (750 * time.Millisecond) emptyMetrics)) ∧
  ((((Float32 (rng w)).1 < 0.3)%Q →
    500 * time.Millisecond ≤ injectedDelay (applyBehavior cfg) w < 1500 * time.Millisecond) ∧
   (¬ ((Float32 (rng w)).1 < 0.3)%Q → injectedDelay (applyBehavior cfg) w = 0) ∧
   ((applyBehavior cfg w).1 = 500 ↔ ((Float32 (chaoticSecond (rng w))).1 < 0.4)%Q) ∧
   ((applyBehavior cfg w).1 = 200 ↔ ¬ ((Float32 (chaoticSecond (rng w))).1 < 0.4)%Q) ∧
   code (handler cfg RootRoute (GET "/") w).1 = (applyBehavior cfg w).1 ∧
   injectedDelay (handler cfg RootRoute (GET "/")) w = injectedDelay (applyBehavior cfg) w ∧
   (frequency (chaoticDelayed cfg [] ks t emptyMetrics) (list_prod G G) == 0.3)%Q ∧
   (frequency (chaoticFailed cfg [] ks t emptyMetrics) (list_prod G G) == 0.4)%Q ∧
   (frequency (λ u, chaoticDelayed cfg [] ks t emptyMetrics u
                    && chaoticFailed cfg [] ks t emptyMetrics u)
      (list_prod G G) == 0.12)%Q).
Proof.
  intros cfg ks t w G.
  split; [split; [reflexivity | left; reflexivity]|].
  split; [split; reflexivity|].
  apply (chaotic_independent_draws cfg RootRoute (GET "/") w 1 [] ks t emptyMetrics).
  - reflexivity.
  - left; reflexivity.
Defined.

(** C3, as the code has it.  In slow mode every content route answers
    200.  The engine pauses for [200 + k] milliseconds, [k] the
    [Intn(800)] draw, so for root and data the injected delay lies in
    [200ms, 1000ms).  The process route then pauses again, for
    [100 + k'] milliseconds with [k'] an [Intn(400)] draw, so its
    total lies in [300ms, 1500ms). *)
Theorem slow_mode_delay_bounds {S : Type} `{!RandSource S}
    (cfg : Config) (rt : Route) (r : http.Request) (w : World (S:=S)) :
  behavior cfg = "slow" →
  contentRoute rt →
  let k := (Intn 800 (rng w)).1 in
  let k' := (Intn 400 (Intn 800 (rng w)).2).1 in
  let delay := injectedDelay (handler cfg rt r) w in
  code (handler cfg rt r w).1 = 200 ∧
  injectedDelay (applyBehavior cfg) w = (200 + k) * time.Millisecond ∧
  0 ≤ k < 800 ∧
  (rt ≠ ProcessRoute →
     delay = (200 + k) * time.Millisecond ∧
     200 * time.Millisecond ≤ delay < 1000 * time.Millisecond) ∧
  (rt = ProcessRoute →
     delay = (200 + k) * time.Millisecond + (100 + k') * time.Millisecond ∧
     0 ≤ k' < 400 ∧
     300 * time.Millisecond ≤ delay < 1500 * time.Millisecond).
Proof.
  intros Hb Hrt k k' delay.
  destruct (content_spec cfg rt r w Hrt) as (Hc & Hn & _).
  pose proof (Intn_range 800 (rng w) eq_refl) as Hk.
  pose proof (Intn_range 400 (Intn 800 (rng w)).2 eq_refl) as Hk'.
  rewrite applyBehavior_slow in Hc, Hn by done. simpl in Hc, Hn.
  unfold processPause in Hn.
  rewrite decide_True in Hn by done. rewrite decide_True in Hn by done.
  fold k in Hk, Hn. fold k' in Hk', Hn.
  split; [done|].
  split.
  { unfold injectedDelay. rewrite applyBehavior_slow by done. simpl. fold k. lia. }
  split; [done|].
  subst delay. unfold injectedDelay. rewrite Hn.
  unfold time.Millisecond in *.
  split.
  - intros Hne. destruct rt; try done; lia.
  - intros ->. lia.
Qed.

Lemma slow_mode_delay_bounds_witness :
  let cfg := demoConfig "slow" in
  let w := replay [] [5; 7] 0 emptyMetrics in
  let delay := injectedDelay (handler cfg ProcessRoute (GET "/api/process")) w in
  (behavior cfg = "slow" ∧ contentRoute ProcessRoute) ∧
  delay = 312 * time.Millisecond ∧
  (code (handler cfg ProcessRoute (GET "/api/process") w).1 = 200 ∧
   injectedDelay (applyBehavior cfg) w = (200 + 5) * time.Millisecond ∧
   0 ≤ 5 < 800 ∧
   (ProcessRoute ≠ ProcessRoute →
      delay = (200 + 5) * time.Millisecond ∧
      200 * time.Millisecond ≤ delay < 1000 * time.Millisecond) ∧
   (ProcessRoute = ProcessRoute →
      delay = (200 + 5) * time.Millisecond + (100 + 7) * time.Millisecond ∧
      0 ≤ 7 < 400 ∧
      300 * time.Millisecond ≤ delay < 1500 * time.Millisecond)).
Proof.
  intros cfg w delay.
  split; [split; [reflexivity | right; right; reflexivity]|].
  split; [reflexivity|].
  exact (slow_mode_delay_bounds cfg ProcessRoute (GET "/api/process") w
           eq_refl (or_intror (or_intror eq_refl))).
Defined.

(** C3, as stated, fails on the process route: with the engine drawing
    799 and the handler drawing 399 the response is a 200 delayed by
    1498ms, which is not below 1000ms. *)
Lemma slow_process_delay_reaches_1498ms :
  let cfg := demoConfig "slow" in
  let w := replay [] [799; 399] 0 emptyMetrics in
  let res := handler cfg ProcessRoute (GET "/api/process") w in
  behavior cfg = "slow" ∧
  contentRoute ProcessRoute ∧
  code res.1 = 200 ∧
  injectedDelay (handler cfg ProcessRoute (GET "/api/process")) w
    = 1498 * time.Millisecond ∧
  ¬ (∀ (rt : Route) (r : http.Request) (w : World (S:=Tape)),
       contentRoute rt →
       code (handler cfg rt r w).1 = 200 ∧
       200 * time.Millisecond ≤ injectedDelay (handler cfg rt r) w
         < 1000 * time.Millisecond).
Proof.
  intros cfg w res.
  split; [reflexivity|].
  split; [right; right; reflexivity|].
  split; [reflexivity|].
  split; [reflexivity|].
  intros Hall.
  destruct (Hall ProcessRoute (GET "/api/process") w) as [_ [_ Hlt]].
  - right; right; reflexivity.
  - vm_compute in Hlt. discriminate.
Qed.

(** C4. The health route.  In error-prone mode it answers 503 with
    status "unhealthy" exactly when its draw is below 0.3, and 200 with
    status "healthy" otherwise.  In every other mode, recognized or
    not, it answers 200 with the healthy body.  It never sleeps. *)
Theorem health_rule {S : Type} `{!RandSource S}
    (cfg : Config) (r : http.Request) (w : World (S:=S)) :
  let d := (Float32 (rng w)).1 in
  let res := (handler cfg HealthRoute r w).1 in
  (behavior cfg = "error-prone" →
     ((d < 0.3)%Q ↔ code res = 503) ∧
     ((d < 0.3)%Q → res = unhealthyResponse) ∧
     (¬ (d < 0.3)%Q → res = healthyResponse cfg)) ∧
  (behavior cfg ≠ "error-prone" → res = healthyResponse cfg) ∧
  (code res = 503 ∧ res = unhealthyResponse ∨
   code res = 200 ∧ res = healthyResponse cfg) ∧
  injectedDelay (handler cfg HealthRoute r) w = 0 ∧
  unhealthyResponse =
    {| code := 503; contentType := None;
       body := JSONObject {[ "status" := JString "unhealthy";
                             "reason" := JString "simulated failure" ]} |} ∧
  healthyResponse cfg =
    {| code := 200; contentType := Some "application/json";
       body := JSONObject {[ "status" := JString "healthy";
                             "version" := JString (version cfg);
                             "hostname" := JString (hostname cfg) ]} |}.
Proof.
  intros d res.
  destruct (handleHealth_spec cfg r w) as (Hres & Hnow & _).
  change (handleHealth cfg r w).1 with res in Hres.
  change (handleHealth cfg r w) with (handler cfg HealthRoute r w) in Hnow.
  clearbody res. subst d.
  unfold healthFails in Hres.
  split; [|split; [|split; [|split; [|split]]]].
  - intros Hb. rewrite decide_True in Hres by done.
    rewrite <- Qltb_lt.
    destruct (Qltb (Float32 (rng w)).1 0.3); rewrite Hres.
    + split; [done|]. split; [done|]. intros Hn. by destruct Hn.
    + split; [split; [intros; discriminate | intros [=]]|].
      split; [intros; discriminate | done].
  - intros Hb. by rewrite decide_False in Hres.
  - destruct (decide _); [destruct (Qltb _ _)|]; rewrite Hres; auto.
  - unfold injectedDelay. rewrite Hnow. lia.
  - reflexivity.
  - reflexivity.
Qed.

Lemma health_rule_witness :
  let cfg := demoConfig "error-prone" in
  let w := replay [0.2%Q] [] 0 emptyMetrics in
  let res := (handler cfg HealthRoute (GET "/health") w).1 in
  behavior cfg = "error-prone" ∧
  ((Float32 (rng w)).1 < 0.3)%Q ∧
  code res = 503 ∧
  res = unhealthyResponse ∧
  (handler (demoConfig "chaotic") HealthRoute (GET "/health") w).1
    = healthyResponse (demoConfig "chaotic").
Proof.
  intros cfg w res.
  pose proof (health_rule cfg (GET "/health") w) as [Hep _].
  pose proof (health_rule (demoConfig "chaotic") (GET "/health") w) as [_ [Hother _]].
  assert (((Float32 (rng w)).1 < 0.3)%Q) as Hlt by reflexivity.
  destruct (Hep eq_refl) as (Hiff & Hbad & _).
  split; [reflexivity|].
  split; [exact Hlt|].
  split; [exact (proj1 Hiff Hlt)|].
  split; [exact (Hbad Hlt)|].
  apply Hother. discriminate.
Defined.

(** C5, as the code has it.  A request that the mux hands to one of
    the four instrumented handlers (root, health, data, process) adds
    one to exactly one sample of the request counter, labeled with the
    method, the handler's endpoint and the status code sent, and
    appends exactly one observation, the time since the handler
    started, under (method, endpoint).  A request to the scrape route,
    and a request that the mux answers itself (the redirect of a path
    that is not canonical, a 400, a 404), changes nothing.  Hence
    after a run from startup the counter summed over the labels of an
    instrumented endpoint, and the number of its observations, equal
    the number of requests handed to its handler, while both stay zero
    for the scrape route. *)
Theorem instrumented_requests_accounted {S : Type} `{!RandSource S} `{!ServeMux}
    (cfg : Config) (r : http.Request) (w : World (S:=S))
    (rs : list http.Request) (seed : S) (t0 : time.Duration) (ep : string) :
  let rt := route (http.Path r) in
  let res := ServeHTTP cfg r w in
  let l := (http.Method r, endpoint rt, Sprintf_d (code res.1)) in
  let k := (http.Method r, endpoint rt) in
  let v := time.Seconds (injectedDelay (ServeHTTP cfg r) w) in
  let final := metrics (serveAll cfg rs (startup cfg seed t0)).2 in
  (muxAnswer r = None → rt ≠ MetricsRoute →
     metrics res.2 = HistogramObserve k v (CounterInc l (metrics w)) ∧
     (∀ l', requestCounter (metrics res.2) !! l'
            = if decide (l' = l)
              then Some (Datatypes.S (default 0%nat (requestCounter (metrics w) !! l)))
              else requestCounter (metrics w) !! l') ∧
     (∀ k', requestDuration (metrics res.2) !! k'
            = if decide (k' = k)
              then Some (default [] (requestDuration (metrics w) !! k) ++ [v])%list
              else requestDuration (metrics w) !! k')) ∧
  (muxAnswer r = None → rt = MetricsRoute → res.2 = w) ∧
  (∀ a, muxAnswer r = Some a → res = (muxResponse r a, w)) ∧
  (ep ≠ "/metrics" →
     counterTotal ep final = requestsTo ep rs ∧
     observationTotal ep final = requestsTo ep rs) ∧
  counterTotal "/metrics" final = 0%nat ∧
  observationTotal "/metrics" final = 0%nat.
Proof.
  intros rt res l k v final.
  assert (counterTotal ep (metrics (startup cfg seed t0)) = 0%nat) as Hc0
    by apply mapTotal_empty.
  assert (observationTotal ep (metrics (startup cfg seed t0)) = 0%nat) as Ho0
    by apply mapTotal_empty.
  split; [|split; [|split; [|split]]].
  - intros Ha Hrt.
    assert (metrics res.2 = HistogramObserve k v (CounterInc l (metrics w))) as Hm.
    { subst res k v l. unfold injectedDelay.
      rewrite (ServeHTTP_handed cfg r w Ha). fold rt.
      by rewrite (handler_recorded cfg rt r w Hrt). }
    split; [done|]. rewrite Hm. simpl. split.
    + intros l'. rewrite lookup_insert.
      destruct (decide (l = l')), (decide (l' = l)); congruence.
    + intros k'. rewrite lookup_insert.
      destruct (decide (k = k')), (decide (k' = k)); congruence.
  - intros Ha Hrt. subst res. rewrite (ServeHTTP_handed cfg r w Ha).
    fold rt. by rewrite Hrt.
  - intros a Ha. by apply ServeHTTP_answered.
  - intros Hep. subst final.
    destruct (serveAll_totals cfg rs (startup cfg seed t0) ep Hep) as [-> ->].
    rewrite Hc0, Ho0. lia.
  - subst final.
    destruct (serveAll_scrapes_uncounted cfg rs (startup cfg seed t0)) as [-> ->].
    split; apply mapTotal_empty.
Qed.

Lemma instrumented_requests_accounted_witness :
  let cfg := demoConfig "error-prone" in
  let rs := [GET "/"; GET "/metrics"; GET "/api//data"; GET "/"; GET "/health"] in
  let final :=
    metrics (serveAll cfg rs
               (startup cfg {| floats := [0.2%Q; 0.7%Q; 0.9%Q]; ints := [] |} 0)).2 in
  "/" ≠ "/metrics" ∧
  muxAnswer (GET "/api//data") = Some (MovedPermanently "/api/data") ∧
  requestsTo "/" rs = 2%nat ∧
  requestCounter final !! ("GET", "/", "500") = Some 1%nat ∧
  requestCounter final !! ("GET", "/", "200") = Some 1%nat ∧
  requestCounter final !! ("GET", "/health", "200") = Some 1%nat ∧
  (counterTotal "/" final = requestsTo "/" rs ∧
   observationTotal "/" final = requestsTo "/" rs).
Proof.
  intros cfg rs final.
  assert ("/" ≠ "/metrics") as Hne by discriminate.
  split; [exact Hne|].
  do 5 (split; [reflexivity|]).
  exact (proj1 (proj2 (proj2 (proj2
    (instrumented_requests_accounted cfg (GET "/")
       (startup cfg {| floats := []; ints := [] |} 0) rs
       {| floats := [0.2%Q; 0.7%Q; 0.9%Q]; ints := [] |} 0 "/")))) Hne).
Defined.

(** C5, as stated, fails on the scrape route, which is one of the fixed
    routes: a request to /metrics is served by the library handler and
    leaves the request counter and the histogram as they were, so the
    sum for that route is 0 after one request to it. *)
Lemma scrape_request_not_counted :
  let cfg := demoConfig "normal" in
  let rs := [GET "/metrics"] in
  let run := serveAll cfg rs (startup cfg {| floats := []; ints := [] |} 0) in
  map code run.1 = [200] ∧
  requestsTo "/metrics" rs = 1%nat ∧
  requestCounter (metrics run.2) = ∅ ∧
  requestDuration (metrics run.2) = ∅ ∧
  counterTotal "/metrics" (metrics run.2) = 0%nat ∧
  counterTotal "/metrics" (metrics run.2) ≠ requestsTo "/metrics" rs.
Proof.
  intros cfg rs run.
  assert (counterTotal "/metrics" (metrics run.2) = 0%nat) as H0
    by apply mapTotal_empty.
  repeat split; try reflexivity; try exact H0.
  rewrite H0. discriminate.
Qed.




(** C7. In normal mode the engine answers 200 without touching the
    world, and the root, data and process routes answer 200 with no
    injected delay, whatever the generator would have drawn. *)
Theorem normal_mode_ok_without_delay {S : Type} `{!RandSource S}
    (cfg : Config) (rt : Route) (r : http.Request) (w : World (S:=S)) :
  behavior cfg = "normal" →
  contentRoute rt →
  applyBehavior cfg w = (200, w) ∧
  code (handler cfg rt r w).1 = 200 ∧
  injectedDelay (handler cfg rt r) w = 0.
Proof.
  intros Hb Hrt.
  pose proof (applyBehavior_normal cfg w Hb) as Ha.
  destruct (content_spec cfg rt r w Hrt) as (Hc & Hn & _).
  rewrite Ha in Hc, Hn. simpl in Hc, Hn.
  split; [done|]. split; [done|].
  unfold injectedDelay. rewrite Hn.
  unfold processPause. rewrite decide_True by done.
  rewrite decide_False by (rewrite Hb; discriminate).
  destruct rt; lia.
Qed.

Lemma normal_mode_ok_without_delay_witness :
  let w := replay [0.1%Q] [799; 399] 0 emptyMetrics in
  applyBehavior (demoConfig "normal") w = (200, w) ∧
  code (handler (demoConfig "normal") ProcessRoute (GET "/api/process") w).1 = 200 ∧
  injectedDelay (handler (demoConfig "normal") ProcessRoute (GET "/api/process")) w = 0.
Proof.
  apply (normal_mode_ok_without_delay (demoConfig "normal") ProcessRoute).
  - reflexivity.
  - right; right; reflexivity.
Defined.

(** C8. [main] sets the version gauge to 1 under the labels of the
    configuration before it serves; no handler writes the gauge, so
    after any run it holds that single sample, still 1. *)
Theorem version_gauge_stays_one {S : Type} `{!RandSource S} `{!ServeMux}
    (env : gmap string string) (host : option string) (seed : S)
    (t0 : time.Duration) (rs : list http.Request)
    (cfg' : Config) (rt : Route) (r : http.Request) (w : World (S:=S)) :
  let cfg := loadConfig env host in
  let labels := (version cfg, behavior cfg, hostname cfg) in
  let final := (main env host seed t0 rs).2 in
  versionGauge (metrics (startup cfg seed t0)) = {[ labels := 1 ]} ∧
  versionGauge (metrics final) = {[ labels := 1 ]} ∧
  versionGauge (metrics final) !! labels = Some 1 ∧
  versionGauge (metrics (handler cfg' rt r w).2) = versionGauge (metrics w).
Proof.
  intros cfg labels final.
  assert (versionGauge (metrics final) = {[ labels := 1 ]}) as Hfinal.
  { subst final. unfold main. by rewrite serveAll_gauge. }
  split; [done|].
  split; [done|].
  split; [by rewrite Hfinal, lookup_singleton_eq|].
  apply handler_gauge.
Qed.

(** C9. [getEnv] returns the value of the variable when it is set to a
    non-empty string and the default otherwise; a variable set to the
    empty string reads like an unset one.  With nothing set the
    configuration is version "1.0", behavior "normal", port "8080". *)
Theorem getEnv_value_or_default
    (env : gmap string string) (key defaultValue : string) (host : option string) :
  (∀ v, env !! key = Some v → v ≠ "" → getEnv env key defaultValue = v) ∧
  (env !! key = None → getEnv env key defaultValue = defaultValue) ∧
  (env !! key = Some "" → getEnv env key defaultValue = defaultValue) ∧
  getEnv (<[key := ""]> env) key defaultValue
    = getEnv (delete key env) key defaultValue ∧
  version (loadConfig env host) = getEnv env "VERSION" "1.0" ∧
  behavior (loadConfig env host) = getEnv env "BEHAVIOR" "normal" ∧
  port (loadConfig env host) = getEnv env "PORT" "8080" ∧
  loadConfig ∅ host =
    {| version := "1.0"; behavior := "normal"; port := "8080";
       hostname := getHostname host |}.
Proof.
  unfold getEnv, os.Getenv.
  split; [|split; [|split; [|split]]].
  - intros v -> Hv. simpl. by rewrite decide_True.
  - by intros ->.
  - by intros ->.
  - by rewrite lookup_insert_eq, lookup_delete_eq.
  - repeat split; reflexivity.
Qed.

Lemma getEnv_value_or_default_witness :
  getEnv {[ "BEHAVIOR" := "slow"; "PORT" := "" ]} "BEHAVIOR" "normal" = "slow" ∧
  getEnv {[ "BEHAVIOR" := "slow"; "PORT" := "" ]} "VERSION" "1.0" = "1.0" ∧
  getEnv {[ "BEHAVIOR" := "slow"; "PORT" := "" ]} "PORT" "8080" = "8080".
Proof.
  set (env := {[ "BEHAVIOR" := "slow"; "PORT" := "" ]} : gmap string string).
  destruct (getEnv_value_or_default env "BEHAVIOR" "normal" None) as (Hset & _).
  destruct (getEnv_value_or_default env "VERSION" "1.0" None) as (_ & Hunset & _).
  destruct (getEnv_value_or_default env "PORT" "8080" None) as (_ & _ & Hempty & _).
  split; [|split].
  - apply Hset; [reflexivity | discriminate].
  - apply Hunset. reflexivity.
  - apply Hempty. reflexivity.
Defined.

(** C10. For every mode string and every generator state the engine
    returns a status, and that status is 200 or 500.  Hence a content
    route sends 200 or 500, and a 503 can only come from the health
    route. *)
Theorem applyBehavior_200_or_500 {S : Type} `{!RandSource S}
    (cfg : Config) (rt : Route) (r : http.Request) (w : World (S:=S)) :
  (∃ status w', applyBehavior cfg w = (status, w') ∧
                (status = 200 ∨ status = 500)) ∧
  (contentRoute rt →
     code (handler cfg rt r w).1 = 200 ∨ code (handler cfg rt r w).1 = 500) ∧
  (code (handler cfg rt r w).1 = 503 → rt = HealthRoute).
Proof.
  pose proof (applyBehavior_status cfg w) as Hst.
  split.
  { exists (applyBehavior cfg w).1, (applyBehavior cfg w).2.
    split; [by destruct (applyBehavior cfg w) | done]. }
  assert (contentRoute rt →
          code (handler cfg rt r w).1 = 200 ∨ code (handler cfg rt r w).1 = 500)
    as Hcontent.
  { intros Hrt. destruct (content_spec cfg rt r w Hrt) as (-> & _). done. }
  split; [done|].
  intros H503.
  destruct rt; try done.
  - destruct Hcontent as [E|E]; [by left | |]; rewrite E in H503; discriminate.
  - destruct Hcontent as [E|E]; [right; by left | |]; rewrite E in H503; discriminate.
  - destruct Hcontent as [E|E]; [right; by right | |]; rewrite E in H503; discriminate.
Qed.

Lemma applyBehavior_200_or_500_witness :
  let cfg := demoConfig "chaotic" in
  let w := replay [0.9%Q; 0.1%Q] [] 0 emptyMetrics in
  contentRoute ProcessRoute ∧
  (code (handler cfg ProcessRoute (GET "/api/process") w).1 = 200 ∨
   code (handler cfg ProcessRoute (GET "/api/process") w).1 = 500) ∧
  code (handler (demoConfig "error-prone") HealthRoute (GET "/health")
          (replay [0.1%Q] [] 0 emptyMetrics)).1 = 503.
Proof.
  intros cfg w.
  pose proof (applyBehavior_200_or_500 cfg ProcessRoute (GET "/api/process") w)
    as (_ & Hcontent & _).
  split; [right; right; reflexivity|].
  split; [apply Hcontent; right; right; reflexivity | reflexivity].
Defined.

(** * Further properties of the rollouts service *)

(** X1. [getMessage] yields a non-empty message and touches neither the
    clock nor the registry.  In a recognized mode it makes one
    [Intn(3)] draw and returns the entry of that mode in the table at
    the index drawn; in any other mode it returns "Unknown state" and
    makes no draw. *)
Theorem getMessage_from_mode_set {S : Type} `{!RandSource S}
    (cfg : Config) (w : World (S:=S)) :
  let res := getMessage cfg w in
  res.1 ≠ "" ∧ now res.2 = now w ∧ metrics res.2 = metrics w ∧
  (recognized (behavior cfg) →
     res.1 ∈ default [] (messages !! behavior cfg) ∧
     rng res.2 = (Intn 3 (rng w)).2) ∧
  (¬ recognized (behavior cfg) → res = ("Unknown state", w)) ∧
  (∀ msgs, messages !! behavior cfg = Some msgs →
     length msgs = 3%nat ∧
     msgs !! Z.to_nat (Intn 3 (rng w)).1 = Some res.1) ∧
  (recognized (behavior cfg) ↔ is_Some (messages !! behavior cfg)).
Proof.
  intros res. subst res.
  destruct (mode_cases (behavior cfg)) as [Hb | [Hb | [Hb | [Hb | Hu]]]].
  5: { rewrite getMessage_unrecognized by done.
       rewrite (messages_unrecognized _ Hu).
       repeat split; try done; intros H;
         solve [by destruct Hu | by destruct H | by inversion H]. }
  all: assert (recognized (behavior cfg)) as Hr by (unfold recognized; tauto).
  all: destruct (messages_recognized _ Hr) as (m1 & m2 & m3 & Hm & H1 & H2 & H3).
  all: destruct (getMessage_recognized cfg w m1 m2 m3 Hm) as [-> Hi].
  all: rewrite Hm; simpl.
  all: assert (default "" ([m1; m2; m3] !! Z.to_nat (Intn 3 (rng w)).1)
               ∈ [m1; m2; m3] ∧
               default "" ([m1; m2; m3] !! Z.to_nat (Intn 3 (rng w)).1) ≠ "" ∧
               [m1; m2; m3] !! Z.to_nat (Intn 3 (rng w)).1
               = Some (default "" ([m1; m2; m3] !! Z.to_nat (Intn 3 (rng w)).1)))
         as (Hin & Hne & Hsel)
         by (destruct Hi as [E | [E | E]]; rewrite E; simpl;
             rewrite ?elem_of_cons; tauto).
  all: split; [done|]. all: split; [done|]. all: split; [done|].
  all: split; [done|]. all: split; [done|].
  all: split; [by intros msgs [= <-] | split; [by eexists | done]].
Qed.

Lemma getMessage_from_mode_set_witness :
  let w := replay [] [4] 0 emptyMetrics in
  recognized "chaotic" ∧ ¬ recognized "blue" ∧
  (Intn 3 (rng w)).1 = 1 ∧
  (getMessage (demoConfig "chaotic") w).1 = "System under stress" ∧
  (getMessage (demoConfig "chaotic") w).1
    ∈ default [] (messages !! behavior (demoConfig "chaotic")) ∧
  ["Unpredictable behavior"; "System under stress"; "Erratic performance"]
    !! Z.to_nat (Intn 3 (rng w)).1 = Some (getMessage (demoConfig "chaotic") w).1 ∧
  getMessage (demoConfig "blue") w = ("Unknown state", w).
Proof.
  intros w.
  assert (recognized "chaotic") as Hr by (unfold recognized; tauto).
  assert (¬ recognized "blue") as Hu by (intros [E | [E | [E | E]]]; discriminate E).
  destruct (getMessage_from_mode_set (demoConfig "chaotic") w)
    as (_ & _ & _ & Hin & _ & Hsel & _).
  destruct (getMessage_from_mode_set (demoConfig "blue") w) as (_ & _ & _ & _ & Hun & _).
  split; [exact Hr|]. split; [exact Hu|].
  split; [reflexivity|]. split; [reflexivity|].
  split; [exact (proj1 (Hin Hr))|].
  split; [exact (proj2 (Hsel _ eq_refl)) | exact (Hun Hu)].
Defined.

(** X2. A 200 from the data route carries an [items] count drawn from
    [0, 100), [processed] true, the version and hostname of the
    configuration and the time at which the engine's delay ended. *)
Theorem data_payload_items_in_range {S : Type} `{!RandSource S}
    (cfg : Config) (r : http.Request) (w : World (S:=S)) :
  code (handleAPIData cfg r w).1 = 200 →
  ∃ items,
    0 ≤ items < 100 ∧
    (handleAPIData cfg r w).1 =
      {| code := 200; contentType := Some "application/json";
         body := JSONObject
           {[ "items" := JNumber items;
              "processed" := JBool true;
              "version" := JString (version cfg);
              "hostname" := JString (hostname cfg);
              "timestamp" := JTime (now w + injectedDelay (handleAPIData cfg r) w) ]} |}.
Proof.
  intros Hc.
  destruct (handleAPIData_spec cfg r w) as (Hcode & Hn & _).
  destruct (handleAPIData_response cfg r w) as [_ Hok].
  simpl in *. rewrite Hcode in Hc. destruct (Hok Hc) as [Hres _].
  pose proof (Intn_range 100 (rng (applyBehavior cfg w).2) eq_refl) as Hk.
  exists (Intn 100 (rng (applyBehavior cfg w).2)).1. split; [done|].
  rewrite Hres. unfold injectedDelay. rewrite Hn.
  replace (now w + (now (applyBehavior cfg w).2 - now w))
    with (now (applyBehavior cfg w).2) by lia.
  reflexivity.
Qed.

Lemma data_payload_items_in_range_witness :
  let w := replay [] [250; 1042] 0 emptyMetrics in
  code (handleAPIData (demoConfig "slow") (GET "/api/data") w).1 = 200 ∧
  ∃ items,
    0 ≤ items < 100 ∧
    (handleAPIData (demoConfig "slow") (GET "/api/data") w).1 =
      {| code := 200; contentType := Some "application/json";
         body := JSONObject
           {[ "items" := JNumber items;
              "processed" := JBool true;
              "version" := JString "1.0";
              "hostname" := JString "demo-app-0";
              "timestamp" := JTime
                (now w + injectedDelay
                           (handleAPIData (demoConfig "slow") (GET "/api/data")) w) ]} |}.
Proof.
  intros w. split; [reflexivity|].
  apply (data_payload_items_in_range (demoConfig "slow") (GET "/api/data") w).
  reflexivity.
Defined.

(** X4. On a content route a response other than 200 is the plain-text
    500 written by [http.Error]: it only occurs in error-prone or
    chaotic mode, and the handler makes no draw after the engine's.  A
    200 is always sent as JSON. *)
Theorem content_error_is_plain_500 {S : Type} `{!RandSource S}
    (cfg : Config) (rt : Route) (r : http.Request) (w : World (S:=S)) :
  contentRoute rt →
  let res := handler cfg rt r w in
  (code res.1 ≠ 200 →
     res.1 = {| code := 500;
                contentType := Some "text/plain; charset=utf-8";
                body := ErrorText ("Internal Server Error" ++ String "010"%char "") |} ∧
     rng res.2 = rng (applyBehavior cfg w).2 ∧
     (behavior cfg = "error-prone" ∨ behavior cfg = "chaotic")) ∧
  (code res.1 = 200 → contentType res.1 = Some "application/json").
Proof.
  intros Hrt res. subst res.
  destruct (content_spec cfg rt r w Hrt) as (Hcode & _).
  assert (∀ st, st = 500 → httpError (http.StatusText st) st =
            {| code := 500; contentType := Some "text/plain; charset=utf-8";
               body := ErrorText ("Internal Server Error" ++ String "010"%char "") |})
    as Herr by (by intros st ->).
  split.
  - intros Hne. rewrite Hcode in Hne.
    destruct (applyBehavior_500_mode cfg w Hne) as [H500 Hmode].
    destruct Hrt as [-> | [-> | ->]]; simpl.
    + destruct (handleRoot_response cfg r w) as [He _].
      destruct (He Hne) as [-> ->]. by rewrite Herr.
    + destruct (handleAPIData_response cfg r w) as [He _].
      destruct (He Hne) as [-> ->]. by rewrite Herr.
    + destruct (handleProcess_response cfg r w) as [He _].
      destruct (He Hne) as [-> ->]. by rewrite Herr.
  - intros Hok. rewrite Hcode in Hok.
    destruct Hrt as [-> | [-> | ->]]; simpl.
    + destruct (handleRoot_response cfg r w) as [_ H200].
      by destruct (H200 Hok) as (w1 & _ & _ & -> & _).
    + destruct (handleAPIData_response cfg r w) as [_ H200].
      by destruct (H200 Hok) as [-> _].
    + destruct (handleProcess_response cfg r w) as [_ H200].
      by rewrite (H200 Hok).
Qed.

Lemma content_error_is_plain_500_witness :
  let cfg := demoConfig "error-prone" in
  let w := replay [0.2%Q] [] 0 emptyMetrics in
  contentRoute ProcessRoute ∧
  code (handler cfg ProcessRoute (GET "/api/process") w).1 ≠ 200 ∧
  body (handler cfg ProcessRoute (GET "/api/process") w).1
    = ErrorText ("Internal Server Error" ++ String "010"%char "").
Proof.
  intros cfg w.
  assert (contentRoute ProcessRoute) as Hrt by (right; right; reflexivity).
  assert (code (handler cfg ProcessRoute (GET "/api/process") w).1 ≠ 200) as Hne
    by discriminate.
  destruct (content_error_is_plain_500 cfg ProcessRoute (GET "/api/process") w Hrt)
    as [Herr _].
  destruct (Herr Hne) as (Hres & _).
  split; [exact Hrt|]. split; [exact Hne|].
  exact (f_equal body Hres).
Defined.

(** X5. A 200 from the root route is the envelope of the configuration:
    its version, mode string and hostname, the time at which the
    engine's delay ended, and a non-empty message that belongs to the
    mode's entry of the table when the mode is recognized. *)
Theorem root_envelope_echoes_configuration {S : Type} `{!RandSource S}
    (cfg : Config) (r : http.Request) (w : World (S:=S)) :
  code (handleRoot cfg r w).1 = 200 →
  ∃ msg,
    (handleRoot cfg r w).1 =
      {| code := 200; contentType := Some "application/json";
         body := Envelope {| Version := version cfg;
                             Behavior := behavior cfg;
                             Hostname := hostname cfg;
                             Timestamp := now w + injectedDelay (handleRoot cfg r) w;
                             Message := msg |} |} ∧
    msg ≠ "" ∧
    (recognized (behavior cfg) → msg ∈ default [] (messages !! behavior cfg)) ∧
    (¬ recognized (behavior cfg) → msg = "Unknown state").
Proof.
  intros Hc.
  destruct (handleRoot_spec cfg r w) as (Hcode & Hn & _).
  destruct (handleRoot_response cfg r w) as [_ Hok].
  simpl in *. rewrite Hcode in Hc.
  destruct (Hok Hc) as (w1 & _ & _ & Hres & _).
  destruct (getMessage_facts cfg w1) as (Hne & _ & _ & Hrec & Hun).
  exists (getMessage cfg w1).1.
  split; [|split; [done|split]].
  - rewrite Hres. unfold injectedDelay. rewrite Hn.
    replace (now w + (now (applyBehavior cfg w).2 - now w))
      with (now (applyBehavior cfg w).2) by lia.
    reflexivity.
  - intros Hr. by apply Hrec.
  - intros Hu. by rewrite (Hun Hu).
Qed.

Lemma root_envelope_echoes_configuration_witness :
  let cfg := demoConfig "slow" in
  let w := replay [] [300; 2] 7 emptyMetrics in
  code (handleRoot cfg (GET "/") w).1 = 200 ∧
  body (handleRoot cfg (GET "/") w).1
    = Envelope {| Version := "1.0"; Behavior := "slow"; Hostname := "demo-app-0";
                  Timestamp := 7 + 500 * time.Millisecond;
                  Message := "High latency detected" |} ∧
  ∃ msg,
    (handleRoot cfg (GET "/") w).1 =
      {| code := 200; contentType := Some "application/json";
         body := Envelope {| Version := version cfg;
                             Behavior := behavior cfg;
                             Hostname := hostname cfg;
                             Timestamp := now w + injectedDelay (handleRoot cfg (GET "/")) w;
                             Message := msg |} |} ∧
    msg ≠ "" ∧
    (recognized (behavior cfg) → msg ∈ default [] (messages !! behavior cfg)) ∧
    (¬ recognized (behavior cfg) → msg = "Unknown state").
Proof.
  intros cfg w. split; [reflexivity|]. split; [reflexivity|].
  apply (root_envelope_echoes_configuration cfg (GET "/") w). reflexivity.
Defined.

(** X6. Whatever the mode string, the route and the draws, the delay
    injected into one request is a non-negative time below 1500ms, well
    inside the 10s write timeout of the server; the health and scrape
    routes are never delayed. *)
Theorem injected_delay_below_write_timeout {S : Type} `{!RandSource S}
    (cfg : Config) (rt : Route) (r : http.Request) (w : World (S:=S)) :
  0 ≤ injectedDelay (handler cfg rt r) w < 1500 * time.Millisecond ∧
  injectedDelay (handler cfg rt r) w < WriteTimeout (server cfg) ∧
  (rt = HealthRoute ∨ rt = MetricsRoute → injectedDelay (handler cfg rt r) w = 0).
Proof.
  assert (rt = HealthRoute ∨ rt = MetricsRoute →
          injectedDelay (handler cfg rt r) w = 0) as Hquiet.
  { intros [-> | ->]; unfold injectedDelay.
    - destruct (handleHealth_spec cfg r w) as (_ & Hn & _).
      simpl in *. rewrite Hn. lia.
    - simpl. lia. }
  assert (0 ≤ injectedDelay (handler cfg rt r) w < 1500 * time.Millisecond) as Hb.
  { destruct (decide (rt = HealthRoute ∨ rt = MetricsRoute)) as [Hq | Hq].
    { rewrite (Hquiet Hq). unfold time.Millisecond. lia. }
    assert (contentRoute rt) as Hrt by (destruct rt; unfold contentRoute; tauto).
    destruct (content_spec cfg rt r w Hrt) as (_ & Hn & _).
    destruct (applyBehavior_pause cfg w) as (q & Hqeq & Hq1 & Hslow & _).
    pose proof (Intn_range 400 (rng (applyBehavior cfg w).2) eq_refl) as Hk.
    unfold injectedDelay. simpl in Hn. rewrite Hn, Hqeq.
    unfold processPause, time.Millisecond.
    destruct rt; try tauto; try lia.
    destruct (decide _); [|lia].
    destruct (decide (behavior cfg = "slow")) as [Hs|]; [specialize (Hslow Hs)|]; lia. }
  split; [done|]. split; [|done].
  simpl. unfold time.Second, time.Millisecond in *. lia.
Qed.

(** X7. The shape of the request counter is kept by every run and holds
    from startup: each sample present is at least 1 and is labeled
    either with /health and status 200 or 503, or with one of the
    content endpoints and status 200 or 500.  So the counter never
    shows a 503 on a content endpoint, a 500 on /health, or any sample
    for /metrics. *)
Theorem counter_labels_well_formed {S : Type} `{!RandSource S} `{!ServeMux}
    (cfg : Config) (rs : list http.Request) (w : World (S:=S))
    (seed : S) (t0 : time.Duration) :
  (counterShape (metrics w) → counterShape (metrics (serveAll cfg rs w).2)) ∧
  counterShape (metrics (serveAll cfg rs (startup cfg seed t0)).2) ∧
  (∀ meth ep st n,
     requestCounter (metrics (serveAll cfg rs (startup cfg seed t0)).2)
       !! (meth, ep, st) = Some n →
     ep ≠ "/metrics" ∧ (st = "503" → ep = "/health") ∧ (st = "500" → ep ≠ "/health")).
Proof.
  assert (∀ w', counterShape (metrics w') →
                counterShape (metrics (serveAll cfg rs w').2)) as Hinv.
  { apply (serveAll_invariant counterShape). intros rt r. apply handler_counterShape. }
  assert (counterShape (metrics (serveAll cfg rs (startup cfg seed t0)).2)) as Hrun.
  { apply Hinv. intros l n. simpl. by rewrite lookup_empty. }
  split; [apply Hinv|]. split; [done|].
  intros meth ep st n Hl. destruct (Hrun _ _ Hl) as [Hshape _].
  unfold labelShape in Hshape. simpl in Hshape.
  destruct Hshape as [[-> [-> | ->]] | [[-> | [-> | ->]] [-> | ->]]];
    repeat split; intros; discriminate || done.
Qed.

Lemma counter_labels_well_formed_witness :
  let cfg := demoConfig "error-prone" in
  let w := replay [0.1%Q; 0.9%Q] [] 0
             (CounterInc ("GET", "/health", "200") emptyMetrics) in
  counterShape (metrics w) ∧
  counterShape (metrics (serveAll cfg [GET "/health"; GET "/api/data"] w).2) ∧
  requestCounter (metrics (serveAll cfg [GET "/health"; GET "/api/data"] w).2)
    !! ("GET", "/health", "503") = Some 1%nat.
Proof.
  intros cfg w.
  assert (counterShape (metrics w)) as Hw.
  { intros l n. simpl. rewrite lookup_insert. case_decide as E.
    - intros [= <-]. subst l. split; [|lia]. left. split; [done | by left].
    - by rewrite lookup_empty. }
  split; [exact Hw|]. split.
  - exact (proj1 (counter_labels_well_formed cfg [GET "/health"; GET "/api/data"] w
                    {| floats := []; ints := [] |} 0) Hw).
  - reflexivity.
Defined.

(** X8. The two request series agree: after any run from startup, for
    every (method, endpoint) pair the request counter summed over its
    status labels equals the number of duration observations recorded
    under that pair. *)
Theorem counter_matches_observations {S : Type} `{!RandSource S} `{!ServeMux}
    (cfg : Config) (rs : list http.Request) (w : World (S:=S))
    (seed : S) (t0 : time.Duration) (k : string * string) :
  (counterFor k (metrics w) = observationsFor k (metrics w) →
   counterFor k (metrics (serveAll cfg rs w).2)
   = observationsFor k (metrics (serveAll cfg rs w).2)) ∧
  counterFor k (metrics (serveAll cfg rs (startup cfg seed t0)).2)
  = length (default []
      (requestDuration (metrics (serveAll cfg rs (startup cfg seed t0)).2) !! k)).
Proof.
  assert (∀ w', counterFor k (metrics w') = observationsFor k (metrics w') →
                counterFor k (metrics (serveAll cfg rs w').2)
                = observationsFor k (metrics (serveAll cfg rs w').2)) as Hinv.
  { apply (serveAll_invariant (λ m, counterFor k m = observationsFor k m)).
    intros rt r w'. apply handler_counterFor. }
  split; [apply Hinv|].
  apply (Hinv (startup cfg seed t0)).
  unfold counterFor, observationsFor. simpl.
  by rewrite mapTotal_empty, lookup_empty.
Qed.

Lemma counter_matches_observations_witness :
  let cfg := demoConfig "error-prone" in
  let final :=
    metrics (serveAll cfg [GET "/"; GET "/"; GET "/health"]
               (startup cfg {| floats := [0.2%Q; 0.7%Q; 0.9%Q]; ints := [] |} 0)).2 in
  requestCounter final !! ("GET", "/", "500") = Some 1%nat ∧
  requestCounter final !! ("GET", "/", "200") = Some 1%nat ∧
  counterFor ("GET", "/") final = 2%nat ∧
  length (default [] (requestDuration final !! ("GET", "/"))) = 2%nat.
Proof.
  intros cfg final.
  pose proof (proj2 (counter_matches_observations cfg [GET "/"; GET "/"; GET "/health"]
    (startup cfg {| floats := []; ints := [] |} 0)
    {| floats := [0.2%Q; 0.7%Q; 0.9%Q]; ints := [] |} 0 ("GET", "/"))) as Heq.
  fold final in Heq.
  assert (length (default [] (requestDuration final !! ("GET", "/"))) = 2%nat) as Hlen
    by (vm_compute; reflexivity).
  split; [reflexivity|]. split; [reflexivity|].
  split; [by rewrite Heq | exact Hlen].
Defined.

(** X9. Requests only add to the registry: over any run no counter
    sample disappears or decreases, every list of observations is
    extended at its end, and the version gauge is unchanged. *)
Theorem registry_only_grows {S : Type} `{!RandSource S} `{!ServeMux}
    (cfg : Config) (rs : list http.Request) (w : World (S:=S)) :
  let m := metrics w in
  let m' := metrics (serveAll cfg rs w).2 in
  (∀ l n, requestCounter m !! l = Some n →
          ∃ n', requestCounter m' !! l = Some n' ∧ (n ≤ n')%nat) ∧
  (∀ k obs, requestDuration m !! k = Some obs →
            ∃ more, requestDuration m' !! k = Some (obs ++ more)%list) ∧
  versionGauge m' = versionGauge m.
Proof.
  intros m m'. subst m m'.
  change (metricsGrow (metrics w) (metrics (serveAll cfg rs w).2)).
  apply (serveAll_invariant (metricsGrow (metrics w))); [|apply metricsGrow_refl].
  intros rt r w' Hw'. eapply metricsGrow_trans; [done|]. apply handler_metricsGrow.
Qed.

Lemma registry_only_grows_witness :
  let cfg := demoConfig "normal" in
  let w := replay [] [] 0 (CounterInc ("GET", "/", "500") emptyMetrics) in
  requestCounter (metrics w) !! ("GET", "/", "500") = Some 1%nat ∧
  ∃ n', requestCounter (metrics (serveAll cfg [GET "/"; GET "/metrics"] w).2)
          !! ("GET", "/", "500") = Some n' ∧ (1 ≤ n')%nat.
Proof.
  intros cfg w.
  assert (requestCounter (metrics w) !! ("GET", "/", "500") = Some 1%nat) as Hl
    by reflexivity.
  split; [exact Hl|].
  exact (proj1 (registry_only_grows cfg [GET "/"; GET "/metrics"] w) _ _ Hl).
Defined.

(** X10. Responses and the version gauge tell the same identity: every
    envelope sent during a run of [main] carries the version, mode
    string and hostname under which the gauge holds its sample 1. *)
Theorem envelopes_match_version_gauge {S : Type} `{!RandSource S} `{!ServeMux}
    (env : gmap string string) (host : option string) (seed : S)
    (t0 : time.Duration) (rs : list http.Request)
    (resp : ResponseWriter) (e : Response) :
  let run := main env host seed t0 rs in
  resp ∈ run.1 →
  body resp = Envelope e →
  versionGauge (metrics run.2) !! (Version e, Behavior e, Hostname e) = Some 1.
Proof.
  intros run Hin Hbody. subst run. unfold main in *.
  destruct (serveAll_envelope _ _ _ _ _ Hin Hbody) as (-> & -> & ->).
  rewrite serveAll_gauge. simpl. apply lookup_insert_eq.
Qed.

Lemma envelopes_match_version_gauge_witness :
  let env : gmap string string := {[ "VERSION" := "2.0"; "BEHAVIOR" := "slow" ]} in
  let run := main env (Some "demo-app-1") {| floats := []; ints := [10; 1] |} 0
               [GET "/"] in
  let e := {| Version := "2.0"; Behavior := "slow"; Hostname := "demo-app-1";
              Timestamp := 210 * time.Millisecond;
              Message := "Processing taking longer than usual" |} in
  jsonOK (Envelope e) ∈ run.1 ∧
  versionGauge (metrics run.2) !! ("2.0", "slow", "demo-app-1") = Some 1.
Proof.
  intros env run e.
  assert (jsonOK (Envelope e) ∈ run.1) as Hin by (vm_compute; apply list_elem_of_here).
  split; [exact Hin|].
  exact (envelopes_match_version_gauge env (Some "demo-app-1")
           {| floats := []; ints := [10; 1] |} 0 [GET "/"] _ e Hin eq_refl).
Defined.

(** X15. A health probe never moves the clock and draws from the
    generator only in error-prone mode, where it takes exactly one
    [Float32].  In every other mode it leaves the generator as it was,
    so the request served next gets the response it would have got
    without the probe. *)
Theorem health_probe_draws_only_in_error_prone {S : Type} `{!RandSource S}
    (cfg : Config) (rt : Route) (r r' : http.Request) (w : World (S:=S)) :
  let w1 := (handler cfg HealthRoute r' w).2 in
  now w1 = now w ∧
  (behavior cfg = "error-prone" → rng w1 = (Float32 (rng w)).2) ∧
  (behavior cfg ≠ "error-prone" →
     rng w1 = rng w ∧
     (rt ≠ MetricsRoute → (handler cfg rt r w1).1 = (handler cfg rt r w).1)).
Proof.
  intros w1. subst w1.
  destruct (handleHealth_spec cfg r' w) as (_ & Hn & _).
  pose proof (handleHealth_draws cfg r' w) as Hr.
  simpl in *. split; [done|]. split.
  - intros Hb. by rewrite decide_True in Hr.
  - intros Hb. rewrite decide_False in Hr by done.
    split; [done|]. intros Hrt.
    by apply handler_sameDraws.
Qed.

Lemma health_probe_draws_only_in_error_prone_witness :
  let w := replay [0.9%Q; 0.1%Q] [] 0 emptyMetrics in
  let probed cfg := (handler cfg HealthRoute (GET "/health") w).2 in
  (behavior (demoConfig "chaotic") ≠ "error-prone" ∧ DataRoute ≠ MetricsRoute) ∧
  (handler (demoConfig "chaotic") DataRoute (GET "/api/data")
     (probed (demoConfig "chaotic"))).1
    = (handler (demoConfig "chaotic") DataRoute (GET "/api/data") w).1 ∧
  code (handler (demoConfig "error-prone") DataRoute (GET "/api/data") w).1 = 200 ∧
  code (handler (demoConfig "error-prone") DataRoute (GET "/api/data")
          (probed (demoConfig "error-prone"))).1 = 500.
Proof.
  intros w probed.
  assert (behavior (demoConfig "chaotic") ≠ "error-prone") as Hb by discriminate.
  assert (DataRoute ≠ MetricsRoute) as Hrt by discriminate.
  destruct (health_probe_draws_only_in_error_prone (demoConfig "chaotic") DataRoute
              (GET "/api/data") (GET "/health") w) as (_ & _ & Hcalm).
  split; [split; [exact Hb | exact Hrt]|].
  split; [exact (proj2 (Hcalm Hb) Hrt)|].
  split; reflexivity.
Defined.

(** * Properties of the health service *)

(** X11. [getOverallStatus] answers "degraded" exactly when some entry
    has status "unhealthy", and "healthy" otherwise: so for the empty
    list, for entries with any other status string, and for a
    concatenation exactly when both parts are healthy. *)
Theorem getOverallStatus_degraded_iff_some_unhealthy
    (services more : list HealthService.ServiceCheck.t) :
  (HealthService.getOverallStatus services = "degraded" ↔
     ∃ s, s ∈ services ∧ HealthService.ServiceCheck.Status s = "unhealthy") ∧
  (HealthService.getOverallStatus services = "healthy" ↔
     ∀ s, s ∈ services → HealthService.ServiceCheck.Status s ≠ "unhealthy") ∧
  HealthService.getOverallStatus [] = "healthy" ∧
  (HealthService.getOverallStatus (services ++ more) = "healthy" ↔
     HealthService.getOverallStatus services = "healthy" ∧
     HealthService.getOverallStatus more = "healthy").
Proof.
  assert (∀ l, HealthService.getOverallStatus l = "healthy" ↔
               ∀ s, s ∈ l → HealthService.ServiceCheck.Status s ≠ "unhealthy") as Hh.
  { intros l. pose proof (HealthService.getOverallStatus_degraded l) as Hd.
    destruct (HealthService.getOverallStatus_values l) as [E | E]; rewrite E in *.
    - split; [|done]. intros _ s Hin Hs.
      assert ("healthy" = "degraded") as H by (apply Hd; eauto). discriminate H.
    - split; [discriminate|]. intros Hall.
      destruct (proj1 Hd eq_refl) as (s & Hin & Hs). by destruct (Hall s Hin). }
  split; [apply HealthService.getOverallStatus_degraded|].
  split; [apply Hh|]. split; [done|].
  rewrite !Hh. split.
  - intros Hall. split; intros s Hs; apply Hall, elem_of_app; auto.
  - intros [Hl Hr] s [Hs | Hs]%elem_of_app; auto.
Qed.

Lemma getOverallStatus_degraded_iff_some_unhealthy_witness :
  let up := {| HealthService.ServiceCheck.Name := "gateway";
               HealthService.ServiceCheck.Status := "healthy";
               HealthService.ServiceCheck.URL := "";
               HealthService.ServiceCheck.Error := "" |} in
  let odd := {| HealthService.ServiceCheck.Name := "cache";
                HealthService.ServiceCheck.Status := "starting";
                HealthService.ServiceCheck.URL := "";
                HealthService.ServiceCheck.Error := "" |} in
  (∀ s, s ∈ [up; odd] → HealthService.ServiceCheck.Status s ≠ "unhealthy") ∧
  HealthService.getOverallStatus [up; odd] = "healthy".
Proof.
  intros up odd.
  assert (∀ s, s ∈ [up; odd] → HealthService.ServiceCheck.Status s ≠ "unhealthy") as Hall.
  { intros s [-> | [-> | ?%elem_of_nil]%elem_of_cons]%elem_of_cons; done. }
  split; [exact Hall|].
  exact (proj2 (proj1 (proj2
    (getOverallStatus_degraded_iff_some_unhealthy [up; odd] []))) Hall).
Defined.

(** X12. [servicesHealthHandler] lists the gateway and the BMI service,
    in that order, each as "healthy" or "unhealthy", and reports
    "healthy" overall exactly when both probes answered with status
    200; a failed call or any other status code, also another 2xx,
    makes the overall status "degraded". *)
Theorem services_overall_healthy_iff_both_200
    (clientGet : string → option Z) (rt : HealthService.Runtime) :
  let resp := HealthService.servicesHealthHandler clientGet rt in
  let both := clientGet "http://gateway:8080/health" = Some 200 ∧
              clientGet "http://bmi-service:8081/health" = Some 200 in
  (HealthService.overall resp = "healthy" ↔ both) ∧
  (HealthService.overall resp = "degraded" ↔ ¬ both) ∧
  map HealthService.ServiceCheck.Name (HealthService.services resp)
    = ["gateway"; "bmi-service"] ∧
  map HealthService.ServiceCheck.URL (HealthService.services resp)
    = ["http://gateway:8080/health"; "http://bmi-service:8081/health"] ∧
  (∀ s, s ∈ HealthService.services resp →
        HealthService.ServiceCheck.Status s = "healthy" ∨
        HealthService.ServiceCheck.Status s = "unhealthy") ∧
  HealthService.timestamp resp = HealthService.timeNow rt.
Proof.
  intros resp both. subst resp both. simpl.
  pose proof (HealthService.checkServiceHealth_healthy clientGet
                "http://gateway:8080/health") as Hg.
  pose proof (HealthService.checkServiceHealth_healthy clientGet
                "http://bmi-service:8081/health") as Hb.
  pose proof (HealthService.checkServiceHealth_values clientGet
                "http://gateway:8080/health") as Vg.
  pose proof (HealthService.checkServiceHealth_values clientGet
                "http://bmi-service:8081/health") as Vb.
  split; [|split; [|split; [done|split; [done|split; [|done]]]]].
  - rewrite <- Hg, <- Hb.
    destruct Vg as [-> | ->], Vb as [-> | ->]; simpl; split;
      solve [done | intros [? ?]; done].
  - rewrite <- Hg, <- Hb.
    destruct Vg as [-> | ->], Vb as [-> | ->]; simpl;
      (split;
       [ intros H; first [discriminate H | intros [H1 H2]; discriminate]
       | intros H; first [reflexivity | exfalso; apply H; split; reflexivity] ]).
  - intros s [-> | [-> | ?%elem_of_nil]%elem_of_cons]%elem_of_cons; simpl; done.
Qed.

Lemma services_overall_healthy_iff_both_200_witness :
  let clientGet := λ url : string,
    if decide (url = "http://gateway:8080/health") then Some 200
    else if decide (url = "http://bmi-service:8081/health") then Some 204
    else None in
  let rt := {| HealthService.timeNow := 5; HealthService.startTime := 0;
               HealthService.runtimeVersion := "go1.21";
               HealthService.runtimeNumGoroutine := 4;
               HealthService.runtimeNumCPU := 2 |} in
  ¬ (clientGet "http://gateway:8080/health" = Some 200 ∧
     clientGet "http://bmi-service:8081/health" = Some 200) ∧
  HealthService.overall (HealthService.servicesHealthHandler clientGet rt) = "degraded".
Proof.
  intros clientGet rt.
  assert (¬ (clientGet "http://gateway:8080/health" = Some 200 ∧
             clientGet "http://bmi-service:8081/health" = Some 200)) as Hno.
  { intros [_ H]. discriminate H. }
  split; [exact Hno|].
  exact (proj2 (proj1 (proj2 (services_overall_healthy_iff_both_200 clientGet rt))) Hno).
Defined.

(** X13. [getEnvironmentVars] returns the environment restricted to the
    six relevant variables that are set to a non-empty string: every
    entry it returns is an entry of the environment, no value is empty,
    a relevant variable that is unset or empty is absent, and applying
    it to its own result changes nothing. *)
Theorem getEnvironmentVars_restricts_environment
    (environ : gmap string string) (key v : string) :
  (HealthService.getEnvironmentVars environ !! key = Some v ↔
     key ∈ HealthService.relevantVars ∧ environ !! key = Some v ∧ v ≠ "") ∧
  HealthService.getEnvironmentVars environ ⊆ environ ∧
  (key ∈ HealthService.relevantVars →
   (environ !! key = None ∨ environ !! key = Some "") →
   HealthService.getEnvironmentVars environ !! key = None) ∧
  HealthService.getEnvironmentVars (HealthService.getEnvironmentVars environ)
    = HealthService.getEnvironmentVars environ.
Proof.
  split; [apply HealthService.getEnvironmentVars_Some|].
  split; [|split].
  - apply map_subseteq_spec. intros k x Hk.
    by apply HealthService.getEnvironmentVars_Some in Hk as (_ & ? & _).
  - intros Hin Hk.
    destruct (HealthService.getEnvironmentVars environ !! key) as [x|] eqn:E; [|done].
    apply HealthService.getEnvironmentVars_Some in E as (_ & E & Hne).
    destruct Hk as [Hk | Hk]; rewrite Hk in E; [discriminate | by injection E as <-].
  - apply map_eq. intros k. apply option_eq. intros x.
    rewrite !HealthService.getEnvironmentVars_Some. tauto.
Qed.

Lemma getEnvironmentVars_restricts_environment_witness :
  let environ : gmap string string :=
    {[ "PORT" := "8082"; "POD_IP" := ""; "HOME" := "/root" ]} in
  HealthService.getEnvironmentVars environ = {[ "PORT" := "8082" ]} ∧
  "POD_IP" ∈ HealthService.relevantVars ∧
  HealthService.getEnvironmentVars environ !! "POD_IP" = None.
Proof.
  intros environ.
  assert ("POD_IP" ∈ HealthService.relevantVars) as Hin.
  { unfold HealthService.relevantVars. rewrite !elem_of_cons. tauto. }
  split; [vm_compute; reflexivity|]. split; [exact Hin|].
  exact (proj1 (proj2 (proj2
    (getEnvironmentVars_restricts_environment environ "POD_IP" ""))) Hin
    (or_intror eq_refl)).
Defined.

(** X14. The basic health report always says "healthy" for
    "health-service", with the uptime measured from the start time, and
    its version agrees with its environment map: when the map has
    IMAGE_VERSION the version is that value, and when it has not the
    version is "unknown". *)
Theorem health_report_version_agrees_with_environment
    (environ : gmap string string) (rt : HealthService.Runtime) (v : string) :
  let st := HealthService.healthHandler environ rt in
  HealthService.HealthStatus.Status st = "healthy" ∧
  HealthService.HealthStatus.Service st = "health-service" ∧
  HealthService.HealthStatus.Uptime st
    = HealthService.timeNow rt - HealthService.startTime rt ∧
  (HealthService.HealthStatus.Environment st !! "IMAGE_VERSION" = Some v →
   HealthService.HealthStatus.Version st = v) ∧
  (HealthService.HealthStatus.Environment st !! "IMAGE_VERSION" = None →
   HealthService.HealthStatus.Version st = "unknown") ∧
  HealthService.HealthStatus.Version st ≠ "".
Proof.
  intros st. subst st. simpl.
  split; [done|]. split; [done|]. split; [done|].
  rewrite HealthService.getEnvironmentVars_lookup.
  unfold HealthService.getEnv.
  assert ("IMAGE_VERSION" ∈ HealthService.relevantVars) as Hin.
  { unfold HealthService.relevantVars. rewrite !elem_of_cons. tauto. }
  destruct (decide (os.Getenv environ "IMAGE_VERSION" ≠ "")) as [Hne | He].
  - rewrite decide_True by done. repeat split; [by intros [= ->] | done | done].
  - rewrite decide_False by tauto. repeat split; done.
Qed.

Lemma health_report_version_agrees_with_environment_witness :
  let environ : gmap string string := {[ "IMAGE_VERSION" := "v1.4.2" ]} in
  let rt := {| HealthService.timeNow := 90; HealthService.startTime := 30;
               HealthService.runtimeVersion := "go1.21";
               HealthService.runtimeNumGoroutine := 4;
               HealthService.runtimeNumCPU := 2 |} in
  HealthService.HealthStatus.Environment (HealthService.healthHandler environ rt)
    !! "IMAGE_VERSION" = Some "v1.4.2" ∧
  HealthService.HealthStatus.Version (HealthService.healthHandler environ rt) = "v1.4.2" ∧
  HealthService.HealthStatus.Version (HealthService.healthHandler ∅ rt) = "unknown".
Proof.
  intros environ rt.
  assert (HealthService.HealthStatus.Environment (HealthService.healthHandler environ rt)
            !! "IMAGE_VERSION" = Some "v1.4.2") as Hset by reflexivity.
  assert (HealthService.HealthStatus.Environment (HealthService.healthHandler ∅ rt)
            !! "IMAGE_VERSION" = None) as Hunset by reflexivity.
  destruct (health_report_version_agrees_with_environment environ rt "v1.4.2")
    as (_ & _ & _ & Hv & _).
  destruct (health_report_version_agrees_with_environment ∅ rt "")
    as (_ & _ & _ & _ & Hu & _).
  split; [exact Hset|]. split; [exact (Hv Hset) | exact (Hu Hunset)].
Defined.
